(** * The generation orchestrator of fms_sdg ([generate_data.py])

    A shallow embedding of [fms_sdg.generate_data.generate_data] and the
    properties of its resumable iteration loop.

    Python values are modelled as follows.
    - [int] is [Z] (unbounded); [len] results are [nat].
    - [str] is [string]; lists are [list].
    - The task objects of one builder group live in a store (a list indexed
      by object identity); the lists [tasks] and [completed_tasks] of the
      source hold references, here indices into that store.  Python's
      [task not in completed_tasks] is membership by identity, since the
      tasks of a group are pairwise distinct objects.
    - The collaborators that the source only consumes (the task's
      persistence methods and completion predicate, the data builder, the
      builder index, the file system) are interfaces: type classes whose
      methods the orchestrator calls.
    - Every call to a collaborator is recorded in a chronological trace of
      events, so that "is called", "exactly once" and "before" are
      statements about that trace. *)

From Stdlib Require Import ZArith Lia String Ascii.
From stdpp Require Import base tactics option list sets strings.

Local Open Scope string_scope.
Local Open Scope list_scope.

(** ** Data model *)

(** An accepted or seed example; [fid.task_name] is the identity of the
    owning task, the rest of the record is opaque to the orchestrator. *)
Record Example := mkExample {
  task_name : string;
  payload : string
}.

(** The attributes of [SdgTask] that [generate_data] reads or writes. *)
Record SdgTask := mkSdgTask {
  name : string;
  output_path : string;
  seed_data : list Example;
  machine_data : list Example
}.

#[global] Instance Example_eq_dec : EqDecision Example.
Proof. solve_decision. Defined.

#[global] Instance SdgTask_eq_dec : EqDecision SdgTask.
Proof. solve_decision. Defined.

#[global] Instance SdgTask_inhabited : Inhabited SdgTask :=
  populate (mkSdgTask EmptyString EmptyString [] []).

(** [task.machine_data = task_data] *)
Definition set_machine_data (task : SdgTask) (task_data : list Example) : SdgTask :=
  {| name := name task; output_path := output_path task;
     seed_data := seed_data task; machine_data := task_data |}.

(** [task.machine_data.extend(new_data)] *)
Definition extend (task : SdgTask) (new_data : list Example) : SdgTask :=
  set_machine_data task (machine_data task ++ new_data).

(** ** Interfaces of the collaborators *)

(** The file system as the orchestrator sees it, together with the
    persistence methods of a task.  The methods of a task act on the task's
    output location, so they are keyed by [task.output_path]. *)
Class Storage (FS : Type) := {
  (** [os.path.exists] *)
  path_exists : string → FS → bool;
  (** [os.path.isfile] *)
  path_isfile : string → FS → bool;
  (** [os.makedirs(output_dir, exist_ok=True)] *)
  makedirs : string → FS → FS;
  (** [task.load_data()] *)
  load_data : string → FS → list Example;
  (** [task.save_data(new_data)] *)
  save_data : string → list Example → FS → FS;
  (** [task.clear_data()] *)
  clear_data : string → FS → FS
}.

(** [task.is_complete()]: the completion predicate of the task type,
    decided by the task's own state. *)
Class TaskPolicy := {
  is_complete : SdgTask → bool
}.

(** A data builder instance: a callable with private state.  A call
    [data_builder(request_idx, data_pool)] returns
    [(filtered_data, discarded)] and the builder's next state. *)
Class DataBuilder (B : Type) := {
  call : B → Z → list Example → list Example * Z * B
}.

(** ** Trace of observable events *)

Inductive LogMsg :=
| LoadedSeeds (seeds : nat) (data_path : string)
| LoadedMachine (n : nat)
| Generated (n : nat) (iter_discarded : Z)
| DiscardedDueToFormat (total_discarded : Z) (output_file_discarded : string)
| GenerationTook.

Inductive Event :=
| Construct (builder_name : string) (output_dir : string)
| Invoke (request_idx : Z) (data_pool filtered_data : list Example) (discarded : Z)
| ClearData (task : nat)
| LoadData (task : nat)
| SaveData (task : nat) (new_data : list Example)
| Makedirs (path : string)
| ProgressUpdate
| ProgressClose
| Log (msg : LogMsg).

#[global] Instance LogMsg_eq_dec : EqDecision LogMsg.
Proof. solve_decision. Defined.

#[global] Instance Event_eq_dec : EqDecision Event.
Proof. solve_decision. Defined.

(** Observations on a trace. *)
Definition invocations (tr : list Event) : list (Z * list Example) :=
  omap (λ ev, match ev with Invoke idx pool _ _ => Some (idx, pool) | _ => None end) tr.

Definition discards (tr : list Event) : list Z :=
  omap (λ ev, match ev with Invoke _ _ _ discarded => Some discarded | _ => None end) tr.

Definition saves (tr : list Event) : list (nat * list Example) :=
  omap (λ ev, match ev with SaveData i new_data => Some (i, new_data) | _ => None end) tr.

Definition reports (tr : list Event) : list Z :=
  omap (λ ev, match ev with
              | Log (DiscardedDueToFormat total _) => Some total
              | _ => None
              end) tr.

(** The directories that the run hands to builders or creates. *)
Definition directories (tr : list Event) : list string :=
  omap (λ ev, match ev with
              | Construct _ output_dir => Some output_dir
              | Makedirs path => Some path
              | _ => None
              end) tr.

Definition sumZ (l : list Z) : Z := foldr Z.add 0%Z l.

(** ** The iteration loop of one builder group (lines 123-155) *)

Section Loop.
Context {FS B : Type} `{!Storage FS} `{!DataBuilder B} `{!TaskPolicy}.

Variable max_gen_requests : Z.

(** The local variables of the loop, the task store and the world. *)
Record Loop := mkLoop {
  store : list SdgTask;
  tasks : list nat;
  completed_tasks : list nat;
  request_idx : Z;
  total_discarded : Z;
  data_builder : B;
  fs : FS;
  trace : list Event
}.

Definition emit (ev : Event) (st : Loop) : Loop :=
  mkLoop (store st) (tasks st) (completed_tasks st) (request_idx st)
         (total_discarded st) (data_builder st) (fs st) (trace st ++ [ev]).

Definition set_store (v : list SdgTask) (st : Loop) : Loop :=
  mkLoop v (tasks st) (completed_tasks st) (request_idx st)
         (total_discarded st) (data_builder st) (fs st) (trace st).

Definition set_tasks (v : list nat) (st : Loop) : Loop :=
  mkLoop (store st) v (completed_tasks st) (request_idx st)
         (total_discarded st) (data_builder st) (fs st) (trace st).

Definition set_completed_tasks (v : list nat) (st : Loop) : Loop :=
  mkLoop (store st) (tasks st) v (request_idx st)
         (total_discarded st) (data_builder st) (fs st) (trace st).

Definition set_request_idx (v : Z) (st : Loop) : Loop :=
  mkLoop (store st) (tasks st) (completed_tasks st) v
         (total_discarded st) (data_builder st) (fs st) (trace st).

Definition set_total_discarded (v : Z) (st : Loop) : Loop :=
  mkLoop (store st) (tasks st) (completed_tasks st) (request_idx st)
         v (data_builder st) (fs st) (trace st).

Definition set_data_builder (v : B) (st : Loop) : Loop :=
  mkLoop (store st) (tasks st) (completed_tasks st) (request_idx st)
         (total_discarded st) v (fs st) (trace st).

Definition set_fs (v : FS) (st : Loop) : Loop :=
  mkLoop (store st) (tasks st) (completed_tasks st) (request_idx st)
         (total_discarded st) (data_builder st) v (trace st).

(** [e for e in (task.seed_data + task.machine_data)] *)
Definition examples (task : SdgTask) : list Example :=
  seed_data task ++ machine_data task.

(** [[e for task in tasks for e in (task.seed_data + task.machine_data)]] *)
Definition data_pool (st : Loop) : list Example :=
  tasks st ≫= (λ i, examples (store st !!! i)).

(** [[fid for fid in filtered_data if fid.task_name == task.name]] *)
Definition new_data_for (filtered_data : list Example) (task : SdgTask) : list Example :=
  filter (λ fid, task_name fid = name task) filtered_data.

(** The body of [for task in tasks:] (lines 141-146) for the task object
    with identity [i]: extend, test completion, save. *)
Definition for_task (filtered_data : list Example) (st : Loop) (i : nat) : Loop :=
  let task := store st !!! i in
  let new_data := new_data_for filtered_data task in
  let task := extend task new_data in
  let st := set_store (<[i := task]> (store st)) st in
  let st :=
    if is_complete task then
      emit ProgressUpdate (set_completed_tasks (completed_tasks st ++ [i]) st)
    else st in
  emit (SaveData i new_data)
    (set_fs (save_data (output_path task) new_data (fs st)) st).

(** [sum([len(task.machine_data) for task in tasks + completed_tasks])] *)
Definition generated_count (st : Loop) : nat :=
  sum_list ((λ i, length (machine_data (store st !!! i)))
              <$> (tasks st ++ completed_tasks st)).

(** Lines 140-155: route the accepted examples to the active tasks, then
    the bookkeeping of the iteration. *)
Definition merge (filtered_data : list Example) (discarded : Z) (st : Loop) : Loop :=
  let iter_discarded := 0%Z in
  let st := foldl (for_task filtered_data) st (tasks st) in
  let iter_discarded := (iter_discarded + discarded)%Z in
  let st := set_tasks (filter (λ i, i ∉ completed_tasks st) (tasks st)) st in
  let st := set_total_discarded (total_discarded st + iter_discarded) st in
  emit (Log (Generated (generated_count st) iter_discarded)) st.

(** One pass through the body of the [while] (lines 128-155). *)
Definition iteration (st : Loop) : Loop :=
  let st := set_request_idx (request_idx st + 1) st in
  let pool := data_pool st in
  let '(filtered_data, discarded, builder) :=
    call (data_builder st) (request_idx st) pool in
  let st := emit (Invoke (request_idx st) pool filtered_data discarded)
                 (set_data_builder builder st) in
  merge filtered_data discarded st.

(** [tasks and request_idx <= max_gen_requests] *)
Definition loop_condition (st : Loop) : bool :=
  bool_decide (tasks st ≠ []) && (request_idx st <=? max_gen_requests)%Z.

(** The [while] loop; [None] when the fuel runs out before the condition
    becomes false. *)
Fixpoint while_loop (fuel : nat) (st : Loop) : option Loop :=
  if loop_condition st then
    match fuel with
    | O => None
    | S fuel => while_loop fuel (iteration st)
    end
  else Some st.

(** ** Resume and pre-filter (lines 114-124) *)

(** The body of [for task in tasks:] of the resume step (lines 116-121). *)
Definition resume_task (restart_generation : bool) (st : Loop) (i : nat) : Loop :=
  let task := store st !!! i in
  let st :=
    if restart_generation then
      emit (ClearData i) (set_fs (clear_data (output_path task) (fs st)) st)
    else st in
  if path_exists (output_path task) (fs st) then
    let task_data := load_data (output_path task) (fs st) in
    let st := emit (LoadData i) st in
    let st := set_store (<[i := set_machine_data task task_data]> (store st)) st in
    emit (Log (LoadedMachine (length task_data))) st
  else st.

(** Lines 123-124: the tasks that are already complete never enter the loop. *)
Definition prefilter (st : Loop) : Loop :=
  let st := set_completed_tasks
              (filter (λ i, is_complete (store st !!! i) = true) (tasks st)) st in
  set_tasks (filter (λ i, i ∉ completed_tasks st) (tasks st)) st.

(** Lines 114-155 for the freshly constructed task objects [objs] of one
    group: resume, pre-filter, loop.  The loop needs at most
    [max_gen_requests + 1] passes, which is the fuel it is given. *)
Definition initial_loop (objs : list SdgTask) (total : Z) (builder : B)
    (fs0 : FS) (trace0 : list Event) : Loop :=
  mkLoop objs (seq 0 (length objs)) [] 0 total builder fs0 trace0.

(** The state in which the [while] is entered (lines 114-126). *)
Definition group_start (restart_generation : bool) (st : Loop) : Loop :=
  let st := foldl (resume_task restart_generation) st (tasks st) in
  let st := prefilter st in
  set_request_idx 0 st.

Definition run_tasks (restart_generation : bool) (st : Loop) : option Loop :=
  while_loop (Z.to_nat (max_gen_requests + 1)) (group_start restart_generation st).

(** The states at the head of the [while]: the entry state and every state
    that a pass through the body leads to. *)
Inductive at_loop_head (st0 : Loop) : Loop → Prop :=
| head_entry : at_loop_head st0 st0
| head_next st :
    at_loop_head st0 st → loop_condition st = true →
    at_loop_head st0 (iteration st).

(** The share of task [i] in the accepted examples. *)
Definition share (filtered_data : list Example) (st : Loop) (i : nat) : list Example :=
  new_data_for filtered_data (store st !!! i).

(** What the builder answers to the call of the next pass. *)
Definition response (st : Loop) : list Example * Z * B :=
  call (data_builder st) (request_idx st + 1) (data_pool st).

(** Task [i] as it is after its share has been appended. *)
Definition extended (filtered_data : list Example) (st : Loop) (i : nat) : SdgTask :=
  extend (store st !!! i) (share filtered_data st i).

(** What one pass of [for task in tasks] emits for task [i]. *)
Definition task_events (filtered_data : list Example) (st : Loop) (i : nat) : list Event :=
  (if is_complete (extended filtered_data st i) then [ProgressUpdate] else [])
    ++ [SaveData i (share filtered_data st i)].

(** An accepted example is routable when its [task_name] is the name of an
    active task. *)
Definition routable (st : Loop) (fid : Example) : Prop :=
  Exists (λ i, task_name fid = name (store st !!! i)) (tasks st).

(** All task objects of the group, by identity. *)
Definition group_tasks (st : Loop) : list nat := seq 0 (length (store st)).

(** The invariant at the head of the [while]: the active tasks are the
    tasks of the group that are not in the completed list, and the completed
    list holds the tasks whose completion predicate holds. *)
Definition loop_inv (st : Loop) : Prop :=
  tasks st = filter (λ i, i ∉ completed_tasks st) (group_tasks st)
  ∧ NoDup (completed_tasks st)
  ∧ ∀ i, i ∈ completed_tasks st
         ↔ (i < length (store st))%nat ∧ is_complete (store st !!! i) = true.

End Loop.

Arguments Loop : clear implicits.

(** ** Path arithmetic ([os.path] and [pathlib], POSIX flavour) *)

Module Posix.

Definition slash : ascii := "/"%char.
Definition dot : ascii := "."%char.

(** [p[:i], p[i:]] for [i = p.rfind(c) + 1]; [None] when [c] does not occur. *)
Fixpoint cut_after_last (c : ascii) (p : string) : option (string * string) :=
  match p with
  | EmptyString => None
  | String a rest =>
      match cut_after_last c rest with
      | Some (h, t) => Some (String a h, t)
      | None => if decide (a = c) then Some (String a EmptyString, rest) else None
      end
  end.

(** [s.rstrip('/')] *)
Fixpoint rstrip_slash (s : string) : string :=
  match s with
  | EmptyString => EmptyString
  | String a rest =>
      match rstrip_slash rest with
      | EmptyString => if decide (a = slash) then EmptyString else String a EmptyString
      | r => String a r
      end
  end.

(** [posixpath.split]: the head loses its trailing slashes unless it
    consists of slashes only. *)
Definition os_path_split (p : string) : string * string :=
  let '(head, tail) :=
    match cut_after_last slash p with
    | Some ht => ht
    | None => (EmptyString, p)
    end in
  match rstrip_slash head with
  | EmptyString => (head, tail)
  | stripped => (stripped, tail)
  end.

(** [s.startswith('/')] and [s.endswith('/')] *)
Definition starts_with_slash (s : string) : bool :=
  match s with
  | String a _ => bool_decide (a = slash)
  | EmptyString => false
  end.

Fixpoint ends_with_slash (s : string) : bool :=
  match s with
  | EmptyString => false
  | String a EmptyString => bool_decide (a = slash)
  | String _ rest => ends_with_slash rest
  end.

(** [posixpath.join] of two components. *)
Definition os_path_join (a b : string) : string :=
  if starts_with_slash b then b
  else if bool_decide (a = EmptyString) || ends_with_slash a then a ++ b
  else a ++ "/" ++ b.

(** ['/' in s] *)
Fixpoint has_slash (s : string) : bool :=
  match s with
  | EmptyString => false
  | String a rest => bool_decide (a = slash) || has_slash rest
  end.

(** ['/' * k] *)
Fixpoint slashes (k : nat) : string :=
  match k with
  | O => EmptyString
  | S k => String slash (slashes k)
  end.

(** A component that [pathlib] keeps: not empty and not ["."]. *)
Definition proper (x : string) : Prop := x ≠ EmptyString ∧ x ≠ ".".

(** [s.split('/')] *)
Fixpoint split_slash (s : string) : list string :=
  match s with
  | EmptyString => [EmptyString]
  | String a rest =>
      if decide (a = slash) then EmptyString :: split_slash rest
      else match split_slash rest with
           | x :: xs => String a x :: xs
           | [] => [String a EmptyString]
           end
  end.

(** [PurePosixPath(s).name]: the last component that is neither empty nor
    ["."]; the empty string when there is none. *)
Definition path_name (s : string) : string :=
  List.last (filter proper (split_slash s)) EmptyString.

(** [PurePosixPath.stem] on a name: [name[:i]] for [i = name.rfind('.')]
    when [0 < i < len(name) - 1], the name itself otherwise. *)
Definition stem_of_name (nm : string) : string :=
  match cut_after_last dot nm with
  | Some (h, t) =>
      let i := Nat.pred (String.length h) in
      if (0 <? i)%nat && (i <? String.length nm - 1)%nat
      then substring 0 i nm else nm
  | None => nm
  end.

(** [Path(s).stem] *)
Definition path_stem (s : string) : string := stem_of_name (path_name s).

End Posix.


(** ** The run ([generate_data], lines 21-168) *)

Inductive Exn :=
| SystemExit (msg : string)
| ValueError (msg : string)
| UnboundLocalError (variable : string).

(** How a run ends: it returns, it raises, or (in the model only) the loop
    is cut short by its fuel. *)
Inductive Outcome (A : Type) :=
| Returned (a : A)
| Raised (e : Exn)
| OutOfFuel.

Arguments Returned {A} a.
Arguments Raised {A} e.
Arguments OutOfFuel {A}.

(** The world outside the orchestrator: the file system and the trace. *)
Record World (FS : Type) := mkWorld {
  w_fs : FS;
  w_trace : list Event
}.

Arguments mkWorld {FS} _ _.
Arguments w_fs {FS} _.
Arguments w_trace {FS} _.

(** State and exceptions. *)
Definition M (FS A : Type) : Type := World FS → Outcome A * World FS.

Definition ret {FS A} (a : A) : M FS A := λ w, (Returned a, w).

Definition bind {FS A C} (m : M FS A) (k : A → M FS C) : M FS C :=
  λ w, match m w with
       | (Returned a, w') => k a w'
       | (Raised e, w') => (Raised e, w')
       | (OutOfFuel, w') => (OutOfFuel, w')
       end.

Definition raise {FS A} (e : Exn) : M FS A := λ w, (Raised e, w).

Definition tell {FS} (ev : Event) : M FS unit :=
  λ w, (Returned tt, mkWorld (w_fs w) (w_trace w ++ [ev])).

Definition ask_fs {FS A} (f : FS → A) : M FS A := λ w, (Returned (f (w_fs w)), w).

Definition update_fs {FS} (f : FS → FS) : M FS unit :=
  λ w, (Returned tt, mkWorld (f (w_fs w)) (w_trace w)).

Declare Scope run_scope.
Delimit Scope run_scope with run.
Notation "'let!' x ':=' m 'in' k" := (bind m (λ x, k))
  (at level 10, x name, m at level 100, k at level 200) : run_scope.
Notation "'run!' m 'in' k" := (bind m (λ _, k))
  (at level 10, m at level 100, k at level 200) : run_scope.

(** [for x in xs: body], threading an accumulator. *)
Fixpoint for_each {FS X A} (body : A → X → M FS A) (xs : list X) (acc : A) : M FS A :=
  match xs with
  | [] => ret acc
  | x :: xs => bind (body acc x) (for_each body xs)
  end.

(** [builder_cfg] as yielded by [load_builder_configs(...).items()]: a
    configuration, or a tuple whose second component is a configuration or
    [None]. *)
Inductive BuilderCfg (Config : Type) :=
| Plain (cfg : Config)
| Tuple (cfg : option Config).

Arguments Plain {Config} cfg.
Arguments Tuple {Config} cfg.

(** The remaining collaborators of a run.  The keyword parameters
    [task_kwargs] and [builder_kwargs] are forwarded verbatim, so they are
    part of [TASK_TYPE] and [get_data_builder]. *)
Class Registry (FS B Init Config : Type) := {
  (** [utils.read_data(data_path, include_data_path)] *)
  read_data : string → option string → FS → list Init;
  (** [task_init["data_builder"]] *)
  init_data_builder : Init → string;
  (** [DataBuilderIndex(include_path).match_builders(builder_list)] *)
  match_builders : option string → list string → list string;
  (** [utils.load_yaml_config(builder)] *)
  load_yaml_config : string → FS → Config;
  (** [builder_index.load_builder_configs(builder_names).items()] *)
  load_builder_configs : option string → list (string + Config) → list (string * BuilderCfg Config);
  (** [get_data_builder(builder_name)(config=..., output_dir=..., **builder_kwargs)] *)
  get_data_builder : string → Config → string → B;
  (** [data_builder.TASK_TYPE(output_dir=..., **task_init, **task_kwargs)] *)
  TASK_TYPE : string → string → Init → SdgTask;
  (** [datetime.now().replace(microsecond=0).isoformat().replace(":", "_")]
      as read when the group of the given builder starts. *)
  date_suffix : string → string
}.

Section Run.
Context {FS B Init Config : Type}.
Context `{!Storage FS} `{!DataBuilder B} `{!TaskPolicy} `{!Registry FS B Init Config}.

Local Open Scope run_scope.

(** Lines 32-36: the name of the run. *)
Definition run_name (data_path : string) (fs0 : FS) : string :=
  if path_isfile data_path fs0
  then Posix.path_stem (Posix.os_path_split data_path).1
  else Posix.path_stem data_path.

(** Line 37: the directory under which the run writes,
    [os.path.join(output_dir, name)]. *)
Definition run_output_dir (data_path output_dir : string) (fs0 : FS) : string :=
  Posix.os_path_join output_dir (run_name data_path fs0).

(** Lines 79-82: the configuration of a group, [None] when the group is
    skipped by [continue]. *)
Definition group_config (builder_cfg : BuilderCfg Config) : option Config :=
  match builder_cfg with
  | Plain cfg => Some cfg
  | Tuple cfg => cfg
  end.

(** Lines 93-97: the task objects of a group. *)
Definition group_objs (builder_name output_dir : string) (task_inits : list Init)
    : list SdgTask :=
  TASK_TYPE builder_name output_dir
    <$> filter (λ task_init, init_data_builder task_init = builder_name) task_inits.

(** [builder in builder_names] for a string [builder]: a configuration
    appended on line 56 is a dictionary and never equal to a string. *)
Definition in_builder_names (builder : string) (builder_names : list (string + Config)) : bool :=
  existsb (λ x, match x with inl s => bool_decide (s = builder) | inr _ => false end)
          builder_names.

(** ["*" in builder] *)
Fixpoint has_star (builder : string) : bool :=
  match builder with
  | EmptyString => false
  | String a rest => bool_decide (a = "*"%char) || has_star rest
  end.

(** Lines 48-56. *)
Definition gather_builders (include_builder_path : option string)
    (builder_list : list string) (fs0 : FS) : list (string + Config) :=
  let builder_names := inl <$> match_builders include_builder_path builder_list in
  let unmatched :=
    filter (λ builder, in_builder_names builder builder_names = false) builder_list in
  builder_names
    ++ (inr <$> ((λ builder, load_yaml_config builder fs0)
                   <$> filter (λ builder, path_isfile builder fs0 = true) unmatched)).

(** Lines 58-64; the set is listed in order of first occurrence. *)
Definition builder_missing (builder_list : list string)
    (builder_names : list (string + Config)) : list string :=
  remove_dups
    (filter (λ builder, in_builder_names builder builder_names = false
                        ∧ has_star builder = false) builder_list).

(** Lines 74-158: one pass of [for builder_name, builder_cfg in ...]; the
    accumulator holds [total_discarded] and [output_file_discarded].  The
    lookup of the builder's directory in the index and [import_builder]
    (lines 78 and 85) load the plugin and leave the orchestrator's state
    alone; the construction of the builder is recorded in the trace. *)
Definition run_group (max_gen_requests : Z) (data_path output_dir run : string)
    (restart_generation : bool) (task_inits : list Init)
    (acc : Z * option string) (item : string * BuilderCfg Config)
    : M FS (Z * option string) :=
  let '(builder_name, builder_cfg) := item in
  match group_config builder_cfg with
  | None => ret acc
  | Some builder_cfg =>
      run! tell (Construct builder_name output_dir) in
      let builder := get_data_builder builder_name builder_cfg output_dir in
      let objs := group_objs builder_name output_dir task_inits in
      let seeds := length (objs ≫= seed_data) in
      run! tell (Log (LoadedSeeds seeds data_path)) in
      if bool_decide (seeds = 0%nat) then
        raise (SystemExit "Nothing to generate. Exiting.")
      else
        let output_file_discarded :=
          Posix.os_path_join output_dir
            ("discarded_" ++ run ++ "_" ++ date_suffix builder_name ++ ".log") in
        let! present := ask_fs (path_exists output_dir) in
        run! (if present then ret tt
              else run! tell (Makedirs output_dir) in update_fs (makedirs output_dir)) in
        λ w,
          match run_tasks max_gen_requests restart_generation
                  (initial_loop objs acc.1 builder (w_fs w) (w_trace w)) with
          | Some st =>
              (Returned (total_discarded st, Some output_file_discarded),
               mkWorld (fs st) (trace st))
          | None => (OutOfFuel, w)
          end
  end.

(** [generate_data] *)
Definition generate_data (max_gen_requests : Z) (data_path output_dir : string)
    (include_data_path include_builder_path : option string)
    (restart_generation : bool) : M FS unit :=
  let! run := ask_fs (run_name data_path) in
  let output_dir := Posix.os_path_join output_dir run in
  let! found :=
    ask_fs (λ fs0, bool_decide (data_path ≠ EmptyString) && path_exists data_path fs0) in
  if negb found then
    raise (SystemExit ("Error: data path (" ++ data_path ++ ") does not exist."))
  else
    let! task_inits := ask_fs (read_data data_path include_data_path) in
    let builder_list := init_data_builder <$> task_inits in
    let! builder_names := ask_fs (gather_builders include_builder_path builder_list) in
    let missing := builder_missing builder_list builder_names in
    if bool_decide (missing ≠ []) then
      raise (ValueError ("Builder specifications not found: ["
                           ++ String.concat ", " missing ++ "]"))
    else
      let! acc := for_each
                    (run_group max_gen_requests data_path output_dir run
                               restart_generation task_inits)
                    (load_builder_configs include_builder_path builder_names)
                    (0%Z, None) in
      run! tell ProgressClose in
      run! (if bool_decide (acc.1 ≠ 0%Z) then
              match acc.2 with
              | Some output_file_discarded =>
                  tell (Log (DiscardedDueToFormat acc.1 output_file_discarded))
              | None => raise (UnboundLocalError "output_file_discarded")
              end
            else ret tt) in
      tell (Log GenerationTook).

End Run.


(** ** A concrete world, used to run the orchestrator on sample inputs *)

Module Sample.

(** Modelled from the spec: the task object interface of section 6, which
    the source consumes without defining it.  [load] returns the examples
    saved at the output location, [save] has append semantics, [clear]
    discards the persisted state.  Besides the task files the disk holds the
    input paths and the directories that exist. *)
Record Disk := mkDisk {
  task_files : list (string * list Example);
  data_files : list string;
  folders : list string
}.

Definition saved (p : string) (d : Disk) : option (list Example) :=
  (λ hit, hit.2.2) <$> list_find (λ entry, entry.1 = p) (task_files d).

Definition without (p : string) (d : Disk) : list (string * list Example) :=
  filter (λ entry, entry.1 ≠ p) (task_files d).

#[global] Instance disk_storage : Storage Disk := {|
  path_exists p d :=
    bool_decide (is_Some (saved p d)) || bool_decide (p ∈ data_files d)
      || bool_decide (p ∈ folders d);
  path_isfile p d :=
    bool_decide (is_Some (saved p d)) || bool_decide (p ∈ data_files d);
  makedirs p d := mkDisk (task_files d) (data_files d) (folders d ++ [p]);
  load_data p d := default [] (saved p d);
  save_data p new_data d :=
    mkDisk (without p d ++ [(p, default [] (saved p d) ++ new_data)])
           (data_files d) (folders d);
  clear_data p d := mkDisk (without p d) (data_files d) (folders d)
|}.

(** A builder given by its response to each request. *)
Definition Responder : Type := Z → list Example → list Example * Z.

#[global] Instance responder_builder : DataBuilder Responder := {|
  call f request_idx data_pool := (f request_idx data_pool, f)
|}.

(** A task specification of the sample input: its builder, the task's
    name, its seed examples and the number of examples it needs. *)
Record Spec := mkSpec {
  spec_builder : string;
  spec_name : string;
  spec_seeds : list Example;
  spec_target : nat
}.

(** Modelled from the spec: a completion predicate that holds once a target
    count of generated examples is reached ("e.g., a target count
    reached").  The target of a task is looked up by its name. *)
Definition target_reached (specs : list Spec) : TaskPolicy := {|
  is_complete task :=
    match list_find (λ sp, spec_name sp = name task) specs with
    | Some (_, sp) => (spec_target sp <=? length (machine_data task))%nat
    | None => true
    end
|}.

(** A task type whose tasks are never complete. *)
Definition never_complete : TaskPolicy := {| is_complete _ := false |}.

Definition registry (specs : list Spec) (builders : string → Responder)
    : Registry Disk Responder Spec unit := {|
  read_data _ _ _ := specs;
  init_data_builder := spec_builder;
  match_builders _ builder_list := remove_dups builder_list;
  load_yaml_config _ _ := tt;
  load_builder_configs _ builder_names :=
    omap (λ x, match x with inl s => Some (s, Plain tt) | inr _ => None end) builder_names;
  get_data_builder builder_name _ _ := builders builder_name;
  TASK_TYPE _ output_dir sp :=
    mkSdgTask (spec_name sp) (Posix.os_path_join output_dir (spec_name sp ++ ".jsonl"))
              (spec_seeds sp) [];
  date_suffix _ := "2024-01-01T00_00_00"
|}.

Definition ex (owner text : string) : Example := mkExample owner text.

(** A builder that never accepts anything and discards [n] candidates. *)
Definition rejecting (n : Z) : Responder := λ _ _, ([], n).

(** A builder that returns its pool. *)
Definition echo : Responder := λ _ data_pool, (data_pool, 0%Z).

(** A builder that follows a script, one response per request. *)
Definition scripted (script : list (list Example * Z)) : Responder :=
  λ request_idx _, default ([], 0%Z) (script !! Z.to_nat (request_idx - 1)).

Definition empty_world (d : Disk) : World Disk := mkWorld d [].

(** *** Sample inputs *)

Definition seed_a : Example := ex "A" "seed-a".
Definition seed_b : Example := ex "B" "seed-b".
Definition a1 : Example := ex "A" "a1".
Definition a2 : Example := ex "A" "a2".
Definition a3 : Example := ex "A" "a3".
Definition b1 : Example := ex "B" "b1".
Definition b2 : Example := ex "B" "b2".

(** The input file exists, nothing has been generated yet. *)
Definition input_disk : Disk := mkDisk [] ["data/qna.yaml"] [].

(** Two tasks of one builder: A needs three examples, B needs one.  The
    builder answers three requests, discarding 3, 0 and 5 candidates; its
    second answer still carries an example for B. *)
Definition two_specs : list Spec :=
  [mkSpec "b" "A" [seed_a] 3; mkSpec "b" "B" [seed_b] 1].

Definition two_script : Responder :=
  scripted [([a1; b1], 3%Z); ([a2; b2], 0%Z); ([a3], 5%Z)].

Definition two_objs : list SdgTask :=
  [mkSdgTask "A" "out/data/A.jsonl" [seed_a] [];
   mkSdgTask "B" "out/data/B.jsonl" [seed_b] []].

Definition two_policy : TaskPolicy := target_reached two_specs.

Definition two_registry : Registry Disk Responder Spec unit :=
  registry two_specs (λ _, two_script).

(** One task that is never complete, and a builder that rejects everything. *)
Definition stuck_objs : list SdgTask :=
  [mkSdgTask "A" "out/data/A.jsonl" [seed_a] []].

(** A resumed task: its output file already holds [a1]. *)
Definition resumed_disk : Disk :=
  mkDisk [("out/data/A.jsonl", [a1])] ["data/qna.yaml"] ["out/data"].

Definition resumed_policy : TaskPolicy :=
  target_reached [mkSpec "b" "A" [seed_a] 3].

(** Two groups of one task each; the first builder discards 3 candidates
    per request, the second 5. *)
Definition group_specs : list Spec :=
  [mkSpec "first" "A" [seed_a] 1; mkSpec "second" "B" [seed_b] 1].

Definition group_builders (builder_name : string) : Responder :=
  if decide (builder_name = "first") then rejecting 3 else rejecting 5.

Definition group_policy : TaskPolicy := target_reached group_specs.

Definition group_registry : Registry Disk Responder Spec unit :=
  registry group_specs group_builders.

(** A group whose only task has no seed example. *)
Definition seedless_specs : list Spec := [mkSpec "b" "A" [] 1].

Definition seedless_policy : TaskPolicy := target_reached seedless_specs.

Definition seedless_registry : Registry Disk Responder Spec unit :=
  registry seedless_specs (λ _, echo).

End Sample.

(** ** The claims of the specification, as it states them *)

(** The events of each builder group: the trace cut at every [Construct]. *)
Definition cut_groups (tr : list Event) : list Event * list (list Event) :=
  foldr (λ ev '(current, groups),
           match ev with
           | Construct _ _ => ([], (ev :: current) :: groups)
           | _ => (ev :: current, groups)
           end) ([], []) tr.

Definition group_traces (tr : list Event) : list (list Event) := (cut_groups tr).2.

(** Section 4.3 as the specification words it: every group reports its own
    discard total, once, at the end of its processing. *)
Definition reported_per_group (tr : list Event) : Prop :=
  Forall (λ group, reports group = [sumZ (discards group)]) (group_traces tr).


(** Section 4.2 as the specification words it: after a reload and an
    append, no example that the reload brought occurs twice. *)
Definition no_reintroduction (loaded final : list Example) : Prop :=
  ∀ e : Example, e ∈ loaded → (length (filter (λ x, x = e) final) ≤ 1)%nat.

(** ** Further observations and sample inputs *)

(** How often [progress_bar.update()] was called. *)
Definition progress_updates (tr : list Event) : nat :=
  length (filter (λ ev, ev = ProgressUpdate) tr).

(** The tasks whose [clear_data] and [load_data] were called, in order. *)
Definition clears (tr : list Event) : list nat :=
  omap (λ ev, match ev with ClearData i => Some i | _ => None end) tr.

Definition loads (tr : list Event) : list nat :=
  omap (λ ev, match ev with LoadData i => Some i | _ => None end) tr.

(** The file system as the resume step of the [k]-th task object sees it
    (lines 116-118): with the restart flag the outputs of the task objects
    up to and including it have been cleared, without it nothing has. *)
Definition cleared {FS : Type} `{!Storage FS} (restart_generation : bool)
    (objs : list SdgTask) (k : nat) (dsk : FS) : FS :=
  if restart_generation
  then foldl (λ d task, clear_data (output_path task) d) dsk (take (S k) objs)
  else dsk.

(** The task object [task] after the resume step that sees the file
    system [dsk] (lines 118-120). *)
Definition resumed {FS : Type} `{!Storage FS} (task : SdgTask) (dsk : FS) : SdgTask :=
  if path_exists (output_path task) dsk
  then set_machine_data task (load_data (output_path task) dsk)
  else task.

(** The file that the discard report of a group's pass points to
    (lines 104-109). *)
Definition discard_log {FS B Init Config : Type} `{!Registry FS B Init Config}
    (output_dir run builder_name : string) : string :=
  Posix.os_path_join output_dir
    ("discarded_" ++ run ++ "_" ++ date_suffix builder_name ++ ".log").

(** The builder of the last group that is not skipped. *)
Fixpoint last_run_builder {Config : Type} (items : list (string * BuilderCfg Config))
    : option string :=
  match items with
  | [] => None
  | item :: rest =>
      match last_run_builder rest with
      | Some builder_name => Some builder_name
      | None =>
          match group_config item.2 with
          | Some _ => Some item.1
          | None => None
          end
      end
  end.

Module SampleMore.
Import Sample.

(** The registry of [Sample.registry] with an index that matches no
    builder. *)
Definition unindexed_registry (specs : list Spec) (builders : string → Responder)
    : Registry Disk Responder Spec unit := {|
  read_data _ _ _ := specs;
  init_data_builder := spec_builder;
  match_builders _ _ := [];
  load_yaml_config _ _ := tt;
  load_builder_configs _ builder_names :=
    omap (λ x, match x with inl s => Some (s, Plain tt) | inr _ => None end) builder_names;
  get_data_builder builder_name _ _ := builders builder_name;
  TASK_TYPE _ output_dir sp :=
    mkSdgTask (spec_name sp) (Posix.os_path_join output_dir (spec_name sp ++ ".jsonl"))
              (spec_seeds sp) [];
  date_suffix _ := "2024-01-01T00_00_00"
|}.

(** The builder of the two tasks is given as a configuration file that
    exists; the index does not know it. *)
Definition file_specs : list Spec :=
  [mkSpec "builders/b.yaml" "A" [seed_a] 1].

Definition file_disk : Disk := mkDisk [] ["data/qna.yaml"; "builders/b.yaml"] [].

Definition file_registry : Registry Disk Responder Spec unit :=
  unindexed_registry file_specs (λ _, echo).

Definition file_policy : TaskPolicy := target_reached file_specs.

(** The input is a file in the working directory. *)
Definition bare_disk : Disk := mkDisk [] ["qna.yaml"] [].

End SampleMore.

(** * Properties *)

(** ** The [for task in tasks] loop *)

Section LoopFacts.
Context {FS B : Type} `{!Storage FS} `{!DataBuilder B} `{!TaskPolicy}.
Variable max_gen_requests : Z.

Local Abbreviation Loop := (Loop FS B).

Implicit Types (st : Loop) (i j : nat) (fd : list Example) (l : list nat).
Implicit Types (builder b : B) (dsk : FS) (objs : list SdgTask) (tr : list Event).

Lemma for_task_store fd st i j :
  store (for_task fd st i) !!! j
  = if decide (j = i ∧ i < length (store st)) then extended fd st i else store st !!! j.
Proof.
  unfold for_task, extended, share. simpl.
  destruct (is_complete _); simpl;
    rewrite list_lookup_total_insert; repeat case_decide; try done; naive_solver.
Qed.

Lemma for_task_length fd st i :
  length (store (for_task fd st i)) = length (store st).
Proof.
  unfold for_task. simpl.
  destruct (is_complete _); simpl; by rewrite length_insert.
Qed.

Lemma for_task_completed fd st i :
  completed_tasks (for_task fd st i)
  = completed_tasks st ++ (if is_complete (extended fd st i) then [i] else []).
Proof.
  unfold for_task, extended, share. simpl.
  destruct (is_complete _); simpl; by rewrite ?app_nil_r.
Qed.

Lemma for_task_trace fd st i :
  trace (for_task fd st i) = trace st ++ task_events fd st i.
Proof.
  unfold for_task, task_events, extended, share. simpl.
  destruct (is_complete _); simpl; by rewrite <- ?app_assoc.
Qed.

Lemma for_task_fs fd st i :
  fs (for_task fd st i)
  = save_data (output_path (store st !!! i)) (share fd st i) (fs st).
Proof.
  unfold for_task, extended, share. simpl.
  by destruct (is_complete _).
Qed.

Lemma for_task_frame fd st i :
  tasks (for_task fd st i) = tasks st
  ∧ request_idx (for_task fd st i) = request_idx st
  ∧ total_discarded (for_task fd st i) = total_discarded st
  ∧ data_builder (for_task fd st i) = data_builder st.
Proof. unfold for_task. simpl. by destruct (is_complete _). Qed.

(** The effect of the whole [for] loop over distinct task objects: every
    task of the list is extended by its own share, computed from the state
    before the loop. *)
Lemma for_tasks_spec fd l st :
  NoDup l →
  let st' := foldl (for_task fd) st l in
  (∀ j, store st' !!! j
        = if decide (j ∈ l ∧ j < length (store st)) then extended fd st j
          else store st !!! j)
  ∧ length (store st') = length (store st)
  ∧ completed_tasks st'
    = completed_tasks st ++ filter (λ i, is_complete (extended fd st i) = true) l
  ∧ trace st' = trace st ++ (l ≫= task_events fd st)
  ∧ fs st' = foldl (λ d i, save_data (output_path (store st !!! i)) (share fd st i) d)
                   (fs st) l
  ∧ tasks st' = tasks st
  ∧ request_idx st' = request_idx st
  ∧ total_discarded st' = total_discarded st
  ∧ data_builder st' = data_builder st.
Proof.
  induction l as [|a l IH] using rev_ind; intros Hnd; cbn zeta.
  { rewrite !app_nil_r. repeat split; try done.
    all: intros j; case_decide as Hj; [|done].
    all: destruct Hj as [Hj _]; by apply elem_of_nil in Hj. }
  apply NoDup_app in Hnd as (Hl & Hdisj & _).
  assert (a ∉ l) as Ha by (intros Hin; apply (Hdisj a Hin); by left).
  destruct (IH Hl) as (Hst & Hlen & Hcomp & Htr & Hfs & Hta & Hidx & Htot & Hb).
  rewrite foldl_app. cbn [foldl].
  set (st1 := foldl (for_task fd) st l) in *.
  assert (store st1 !!! a = store st !!! a) as Hsame.
  { rewrite Hst. case_decide; naive_solver. }
  assert (extended fd st1 a = extended fd st a) as Hext
    by (unfold extended, share; by rewrite Hsame).
  assert (share fd st1 a = share fd st a) as Hsh by (unfold share; by rewrite Hsame).
  destruct (for_task_frame fd st1 a) as (? & ? & ? & ?).
  repeat split.
  - intros j. rewrite for_task_store, Hext, Hlen, Hst.
    repeat case_decide; set_solver.
  - by rewrite for_task_length.
  - rewrite for_task_completed, Hext, Hcomp, filter_app, <- app_assoc. f_equal. f_equal.
    rewrite filter_cons, filter_nil. by destruct (is_complete _).
  - rewrite for_task_trace, Htr, bind_app, <- app_assoc. f_equal. f_equal.
    simpl. rewrite app_nil_r. unfold task_events. by rewrite Hext, Hsh.
  - rewrite for_task_fs, Hfs, Hsame, Hsh, foldl_app. done.
  - congruence.
  - congruence.
  - congruence.
  - congruence.
Qed.

(** ** One pass through the body of the [while] *)

(** The pass as a function of the builder's answer. *)
Lemma iteration_unfold st :
  iteration st
  = let '(fd, d, b) := response st in
    merge fd d (emit (Invoke (request_idx st + 1) (data_pool st) fd d)
                  (set_data_builder b (set_request_idx (request_idx st + 1) st))).
Proof. unfold iteration, response. simpl. by destruct (call _ _ _) as [[fd d] b]. Qed.

Lemma iteration_spec st fd d b :
  NoDup (tasks st) →
  response st = (fd, d, b) →
  let st' := iteration st in
  (∀ j, store st' !!! j
        = if decide (j ∈ tasks st ∧ j < length (store st)) then extended fd st j
          else store st !!! j)
  ∧ length (store st') = length (store st)
  ∧ completed_tasks st'
    = completed_tasks st ++ filter (λ i, is_complete (extended fd st i) = true) (tasks st)
  ∧ tasks st' = filter (λ i, i ∉ completed_tasks st') (tasks st)
  ∧ trace st'
    = trace st ++ [Invoke (request_idx st + 1) (data_pool st) fd d]
        ++ (tasks st ≫= task_events fd st)
        ++ [Log (Generated (generated_count st') d)]
  ∧ fs st' = foldl (λ w i, save_data (output_path (store st !!! i)) (share fd st i) w)
                   (fs st) (tasks st)
  ∧ request_idx st' = (request_idx st + 1)%Z
  ∧ total_discarded st' = (total_discarded st + d)%Z
  ∧ data_builder st' = b.
Proof.
  intros Hnd Hresp. cbn zeta. rewrite iteration_unfold, Hresp.
  set (st1 := emit _ _).
  destruct (for_tasks_spec fd (tasks st1) st1 Hnd)
    as (Hst & Hlen & Hcomp & Htr & Hfs & Hta & Hidx & Htot & Hb).
  unfold merge. cbn zeta.
  set (st2 := foldl (for_task fd) st1 (tasks st1)) in *.
  repeat split; simpl.
  - intros j. by rewrite Hst.
  - by rewrite Hlen.
  - by rewrite Hcomp.
  - by rewrite Hta.
  - rewrite Htr. simpl. rewrite <- !app_assoc. simpl. do 3 f_equal.
  - by rewrite Hfs.
  - by rewrite Hidx.
  - rewrite Htot. simpl. lia.
  - by rewrite Hb.
Qed.

(** ** The invariant of the [while] *)

Lemma loop_inv_tasks st i :
  loop_inv st →
  i ∈ tasks st ↔ (i < length (store st) ∧ i ∉ completed_tasks st).
Proof.
  intros (Hta & _ & _). rewrite Hta, list_elem_of_filter. unfold group_tasks.
  rewrite elem_of_seq. split; intros; destruct_and?; split; first [done | lia].
Qed.

Lemma loop_inv_NoDup st : loop_inv st → NoDup (tasks st).
Proof.
  intros (Hta & _ & _). rewrite Hta. apply NoDup_filter, NoDup_seq.
Qed.

Lemma loop_inv_active st i :
  loop_inv st → i ∈ tasks st → is_complete (store st !!! i) = false.
Proof.
  intros Hinv Hi. pose proof Hinv as (_ & _ & Hc).
  apply (loop_inv_tasks _ _ Hinv) in Hi as [Hlt Hnc].
  destruct (is_complete (store st !!! i)) eqn:E; [|done].
  destruct Hnc. apply Hc. done.
Qed.

Lemma iteration_inv st : loop_inv st → loop_inv (iteration st).
Proof.
  intros Hinv. pose proof (loop_inv_NoDup _ Hinv) as Hnd.
  destruct (response st) as [[fd d] b] eqn:Hresp.
  destruct (iteration_spec st fd d b Hnd Hresp)
    as (Hst & Hlen & Hcomp & Hta & _).
  pose proof Hinv as (Hta0 & Hndc & Hc).
  split; [|split].
  - rewrite Hta, Hta0. unfold group_tasks. rewrite Hlen.
    apply list_filter_filter_l. intros x Hx Hin. apply Hx.
    rewrite Hcomp. apply elem_of_app. by left.
  - rewrite Hcomp. apply NoDup_app. split; [done|]. split.
    + intros x Hx Hin. apply list_elem_of_filter in Hin as [_ Hin].
      apply (loop_inv_tasks _ _ Hinv) in Hin. naive_solver.
    + by apply NoDup_filter.
  - intros i. rewrite Hcomp, elem_of_app, list_elem_of_filter, Hlen, Hst.
    pose proof (loop_inv_tasks st i Hinv) as Ht. pose proof (Hc i) as Hci.
    case_decide as Hd; [|destruct (decide (i ∈ tasks st))]; naive_solver.
Qed.

Lemma at_loop_head_inv st0 st :
  loop_inv st0 → at_loop_head max_gen_requests st0 st → loop_inv st.
Proof. intros H0. induction 1; [done|]. by apply iteration_inv. Qed.

Lemma at_loop_head_trans st0 st1 st2 :
  at_loop_head max_gen_requests st0 st1 →
  at_loop_head max_gen_requests st1 st2 →
  at_loop_head max_gen_requests st0 st2.
Proof. intros H1. induction 1; [done|]. by constructor. Qed.

(** ** Resume and pre-filter *)

Lemma resume_task_frame restart st i :
  tasks (resume_task restart st i) = tasks st
  ∧ completed_tasks (resume_task restart st i) = completed_tasks st
  ∧ length (store (resume_task restart st i)) = length (store st)
  ∧ total_discarded (resume_task restart st i) = total_discarded st
  ∧ data_builder (resume_task restart st i) = data_builder st.
Proof.
  unfold resume_task. destruct restart; simpl;
    destruct (path_exists _ _); simpl; by rewrite ?length_insert.
Qed.

Lemma resume_frame restart l st :
  let st' := foldl (resume_task restart) st l in
  tasks st' = tasks st
  ∧ completed_tasks st' = completed_tasks st
  ∧ length (store st') = length (store st)
  ∧ total_discarded st' = total_discarded st
  ∧ data_builder st' = data_builder st.
Proof.
  revert st. induction l as [|a l IH]; intros st; simpl; [done|].
  destruct (IH (resume_task restart st a)) as (-> & -> & -> & -> & ->).
  apply resume_task_frame.
Qed.

Lemma group_start_inv restart st :
  tasks st = group_tasks st → loop_inv (group_start restart st).
Proof.
  intros Hall. unfold group_start, prefilter. cbn zeta.
  destruct (resume_frame restart (tasks st) st) as (Hta & _ & Hlen & _).
  set (st1 := foldl _ _ _) in *.
  unfold loop_inv, group_tasks. simpl. rewrite Hta, Hall. unfold group_tasks.
  rewrite Hlen. split; [done|]. split; [apply NoDup_filter, NoDup_seq|].
  intros i. rewrite list_elem_of_filter, elem_of_seq. naive_solver lia.
Qed.

(** ** Observations on the trace of a pass *)

Lemma task_events_invocations fd st l :
  invocations (l ≫= task_events fd st) = [].
Proof.
  induction l as [|a l IH]; [done|]. rewrite bind_cons. unfold invocations in *.
  rewrite omap_app, IH. unfold task_events. by destruct (is_complete _).
Qed.

Lemma task_events_discards fd st l :
  discards (l ≫= task_events fd st) = [].
Proof.
  induction l as [|a l IH]; [done|]. rewrite bind_cons. unfold discards in *.
  rewrite omap_app, IH. unfold task_events. by destruct (is_complete _).
Qed.

Lemma task_events_reports fd st l :
  reports (l ≫= task_events fd st) = [].
Proof.
  induction l as [|a l IH]; [done|]. rewrite bind_cons. unfold reports in *.
  rewrite omap_app, IH. unfold task_events. by destruct (is_complete _).
Qed.

Lemma task_events_directories fd st l :
  directories (l ≫= task_events fd st) = [].
Proof.
  induction l as [|a l IH]; [done|]. rewrite bind_cons. unfold directories in *.
  rewrite omap_app, IH. unfold task_events. by destruct (is_complete _).
Qed.

Lemma task_events_saves fd st l :
  saves (l ≫= task_events fd st) = (λ i, (i, share fd st i)) <$> l.
Proof.
  induction l as [|a l IH]; [done|]. rewrite bind_cons, fmap_cons. unfold saves in *.
  rewrite omap_app, IH. unfold task_events. by destruct (is_complete _).
Qed.

(** What a pass adds to the trace, seen through each observation. *)
Lemma iteration_observed st fd d b :
  loop_inv st →
  response st = (fd, d, b) →
  invocations (trace (iteration st))
  = invocations (trace st) ++ [((request_idx st + 1)%Z, data_pool st)]
  ∧ discards (trace (iteration st)) = discards (trace st) ++ [d]
  ∧ saves (trace (iteration st))
    = saves (trace st) ++ ((λ i, (i, share fd st i)) <$> tasks st)
  ∧ reports (trace (iteration st)) = reports (trace st)
  ∧ directories (trace (iteration st)) = directories (trace st).
Proof.
  intros Hinv Hresp.
  destruct (iteration_spec st fd d b (loop_inv_NoDup _ Hinv) Hresp)
    as (_ & _ & _ & _ & Htr & _).
  rewrite Htr. unfold invocations, discards, saves, reports, directories.
  rewrite !omap_app.
  fold (invocations (tasks st ≫= task_events fd st)).
  fold (discards (tasks st ≫= task_events fd st)).
  fold (saves (tasks st ≫= task_events fd st)).
  fold (reports (tasks st ≫= task_events fd st)).
  fold (directories (tasks st ≫= task_events fd st)).
  rewrite task_events_invocations, task_events_discards, task_events_saves,
    task_events_reports, task_events_directories.
  simpl. by rewrite !app_nil_r.
Qed.

(** ** The [while] loop terminates *)

Lemma for_tasks_frame fd l st :
  request_idx (foldl (for_task fd) st l) = request_idx st.
Proof.
  revert st. induction l as [|a l IH]; intros st; simpl; [done|].
  rewrite IH. apply for_task_frame.
Qed.

Lemma iteration_request_idx st :
  request_idx (iteration st) = (request_idx st + 1)%Z.
Proof.
  rewrite iteration_unfold. destruct (response st) as [[fd d] b].
  unfold merge. simpl. by rewrite for_tasks_frame.
Qed.

(** Fuel for the passes that the budget still allows is enough. *)
Lemma while_loop_total fuel st :
  (Z.to_nat (max_gen_requests + 1 - request_idx st) ≤ fuel)%nat →
  ∃ st', while_loop max_gen_requests fuel st = Some st'.
Proof.
  revert st. induction fuel as [|fuel IH]; intros st Hfuel; simpl.
  - destruct (loop_condition max_gen_requests st) eqn:Hc; [|by eexists].
    unfold loop_condition in Hc. apply andb_true_iff in Hc as [_ Hc].
    apply Z.leb_le in Hc. lia.
  - destruct (loop_condition max_gen_requests st) eqn:Hc; [|by eexists].
    apply IH. rewrite iteration_request_idx.
    unfold loop_condition in Hc. apply andb_true_iff in Hc as [_ Hc].
    apply Z.leb_le in Hc. lia.
Qed.

(** The loop stops at a state at its head in which its condition fails. *)
Lemma while_loop_stops fuel st st' :
  while_loop max_gen_requests fuel st = Some st' →
  at_loop_head max_gen_requests st st' ∧ loop_condition max_gen_requests st' = false.
Proof.
  revert st. induction fuel as [|fuel IH]; intros st; simpl;
    destruct (loop_condition max_gen_requests st) eqn:Hc; intros Hrun;
    simplify_eq; try (split; [constructor|done]).
  destruct (IH _ Hrun) as [Hhead Hstop]. split; [|done].
  eapply at_loop_head_trans; [|exact Hhead].
  apply head_next; [constructor|done].
Qed.

Lemma run_tasks_total restart st :
  ∃ st', run_tasks max_gen_requests restart st = Some st'.
Proof.
  unfold run_tasks. apply while_loop_total.
  unfold group_start. simpl. lia.
Qed.

(** Resuming invokes no builder and reports nothing. *)
Lemma resume_observed restart l st :
  invocations (trace (foldl (resume_task restart) st l)) = invocations (trace st)
  ∧ discards (trace (foldl (resume_task restart) st l)) = discards (trace st)
  ∧ reports (trace (foldl (resume_task restart) st l)) = reports (trace st)
  ∧ directories (trace (foldl (resume_task restart) st l)) = directories (trace st).
Proof.
  revert st. induction l as [|a l IH]; intros st; simpl; [done|].
  destruct (IH (resume_task restart st a)) as (-> & -> & -> & ->).
  unfold resume_task, invocations, discards, reports, directories.
  destruct restart; simpl; destruct (path_exists _ _); simpl;
    rewrite ?omap_app; simpl; by rewrite ?app_nil_r.
Qed.

Lemma group_start_observed restart st :
  invocations (trace (group_start restart st)) = invocations (trace st)
  ∧ discards (trace (group_start restart st)) = discards (trace st)
  ∧ reports (trace (group_start restart st)) = reports (trace st)
  ∧ directories (trace (group_start restart st)) = directories (trace st)
  ∧ total_discarded (group_start restart st) = total_discarded st
  ∧ length (store (group_start restart st)) = length (store st)
  ∧ request_idx (group_start restart st) = 0%Z.
Proof.
  unfold group_start, prefilter. simpl.
  destruct (resume_observed restart (tasks st) st) as (-> & -> & -> & ->).
  destruct (resume_frame restart (tasks st) st) as (_ & _ & -> & -> & _).
  done.
Qed.

Lemma initial_loop_all objs total builder dsk tr :
  tasks (initial_loop objs total builder dsk tr)
  = group_tasks (initial_loop objs total builder dsk tr).
Proof. done. Qed.

Lemma entry_inv restart objs total builder dsk tr :
  loop_inv (group_start restart (initial_loop objs total builder dsk tr)).
Proof. apply group_start_inv, initial_loop_all. Qed.

(** ** Pool, saves and completion *)

(** C2: in every pass of a group's loop the pool handed to the builder is
    the concatenation, over the tasks of the group that are not in the
    completed list, of their seed examples and the examples generated so
    far; the active list is that list of tasks, and it holds exactly the
    tasks whose completion predicate does not hold. *)
Theorem pool_is_union_of_active_tasks restart objs total builder dsk tr st :
  at_loop_head max_gen_requests
    (group_start restart (initial_loop objs total builder dsk tr)) st →
  loop_condition max_gen_requests st = true →
  let active := filter (λ i, i ∉ completed_tasks st) (group_tasks st) in
  let pool :=
    active ≫= (λ i, seed_data (store st !!! i) ++ machine_data (store st !!! i)) in
  invocations (trace (iteration st))
  = invocations (trace st) ++ [((request_idx st + 1)%Z, pool)]
  ∧ tasks st = active
  ∧ ∀ i, i < length (store st) → (i ∈ active ↔ is_complete (store st !!! i) = false).
Proof.
  intros Hhead _. cbn zeta.
  pose proof (at_loop_head_inv _ _ (entry_inv _ _ _ _ _ _) Hhead) as Hinv.
  destruct (response st) as [[fd d] b] eqn:Hresp.
  destruct (iteration_observed st fd d b Hinv Hresp) as (Hinvoke & _).
  pose proof Hinv as (Hta & _ & Hc).
  split; [|split].
  - rewrite Hinvoke. unfold data_pool, examples. by rewrite Hta.
  - done.
  - intros i Hi. rewrite <- Hta, (loop_inv_tasks _ _ Hinv), Hc.
    destruct (is_complete (store st !!! i)); naive_solver.
Qed.

(** C10: in every pass, the save operation is called once for each task
    that is active at the start of the pass, in order, with that task's
    share of the accepted examples (the empty list when nothing is tagged
    for it); the active tasks are pairwise distinct and none of them is in
    the completed list, so no completed task is saved. *)
Theorem save_once_per_active_task restart objs total builder dsk tr st fd d b :
  at_loop_head max_gen_requests
    (group_start restart (initial_loop objs total builder dsk tr)) st →
  loop_condition max_gen_requests st = true →
  response st = (fd, d, b) →
  saves (trace (iteration st))
  = saves (trace st) ++ ((λ i, (i, new_data_for fd (store st !!! i))) <$> tasks st)
  ∧ fs (iteration st)
    = foldl (λ w i, save_data (output_path (store st !!! i))
                              (new_data_for fd (store st !!! i)) w)
            (fs st) (tasks st)
  ∧ NoDup (tasks st)
  ∧ ∀ i, i ∈ completed_tasks st → i ∉ tasks st.
Proof.
  intros Hhead _ Hresp.
  pose proof (at_loop_head_inv _ _ (entry_inv _ _ _ _ _ _) Hhead) as Hinv.
  destruct (iteration_observed st fd d b Hinv Hresp) as (_ & _ & Hsaves & _ & _).
  destruct (iteration_spec st fd d b (loop_inv_NoDup _ Hinv) Hresp)
    as (_ & _ & _ & _ & _ & Hfs & _).
  split; [done|]. split; [done|]. split; [by apply loop_inv_NoDup|].
  intros i Hi Hin. apply (loop_inv_tasks _ _ Hinv) in Hin. naive_solver.
Qed.

Lemma completed_stays st i st' :
  loop_inv st →
  i ∈ completed_tasks st →
  at_loop_head max_gen_requests st st' →
  i ∈ completed_tasks st' ∧ (i ∉ tasks st') ∧ store st' !!! i = store st !!! i.
Proof.
  intros Hinv Hi Hhead. induction Hhead as [|st1 Hhead IH Hcond].
  - split; [done|]. split; [|done].
    intros Hin. apply (loop_inv_tasks _ _ Hinv) in Hin. naive_solver.
  - destruct IH as (Hc1 & Ht1 & Hs1).
    pose proof (at_loop_head_inv _ _ Hinv Hhead) as Hinv1.
    destruct (response st1) as [[fd d] b] eqn:Hresp.
    destruct (iteration_spec st1 fd d b (loop_inv_NoDup _ Hinv1) Hresp)
      as (Hst & _ & Hcomp & Hta & _).
    split; [|split].
    + rewrite Hcomp. apply elem_of_app. by left.
    + rewrite Hta. intros Hin. apply list_elem_of_filter in Hin as [_ Hin]. done.
    + rewrite Hst, <- Hs1. case_decide; naive_solver.
Qed.

(** C4: a task whose completion predicate holds at the head of the loop is
    in the completed list and not in the active list, and in every later
    state of the loop it is still completed, still not active (so no later
    pool draws on it) and unchanged; a task that becomes complete in a pass
    has its share of that pass appended to its generated examples and saved,
    and is completed and no longer active after the pass. *)
Theorem completed_task_never_revived restart objs total builder dsk tr st :
  at_loop_head max_gen_requests
    (group_start restart (initial_loop objs total builder dsk tr)) st →
  (∀ i st',
     i < length (store st) → is_complete (store st !!! i) = true →
     at_loop_head max_gen_requests st st' →
     i ∈ completed_tasks st' ∧ (i ∉ tasks st') ∧ store st' !!! i = store st !!! i)
  ∧ (∀ i fd d b,
       loop_condition max_gen_requests st = true →
       response st = (fd, d, b) →
       i ∈ tasks st →
       is_complete (extend (store st !!! i) (new_data_for fd (store st !!! i))) = true →
       machine_data (store (iteration st) !!! i)
       = machine_data (store st !!! i) ++ new_data_for fd (store st !!! i)
       ∧ (i, new_data_for fd (store st !!! i))
           ∈ drop (length (saves (trace st))) (saves (trace (iteration st)))
       ∧ i ∈ completed_tasks (iteration st)
       ∧ (i ∉ tasks (iteration st))
       ∧ is_complete (store (iteration st) !!! i) = true).
Proof.
  intros Hhead.
  pose proof (at_loop_head_inv _ _ (entry_inv _ _ _ _ _ _) Hhead) as Hinv.
  split.
  - intros i st' Hi Hdone Hlater.
    apply (completed_stays st i st' Hinv); [|done].
    destruct Hinv as (_ & _ & Hc). by apply Hc.
  - intros i fd d b _ Hresp Hi Hdone.
    destruct (iteration_spec st fd d b (loop_inv_NoDup _ Hinv) Hresp)
      as (Hst & _ & Hcomp & Hta & _).
    destruct (iteration_observed st fd d b Hinv Hresp) as (_ & _ & Hsaves & _ & _).
    pose proof (proj1 (loop_inv_tasks _ _ Hinv) Hi) as [Hlt _].
    assert (store (iteration st) !!! i = extended fd st i) as Hnew.
    { rewrite Hst. case_decide; naive_solver. }
    assert (i ∈ completed_tasks (iteration st)) as Hin.
    { rewrite Hcomp. apply elem_of_app. right. by apply list_elem_of_filter. }
    split; [|split; [|split; [|split]]].
    + by rewrite Hnew.
    + rewrite Hsaves, drop_app_length.
      apply (list_elem_of_fmap_2 (λ i, (i, share fd st i))). done.
    + done.
    + rewrite Hta. intros Hin'. apply list_elem_of_filter in Hin' as [Hn _]. done.
    + by rewrite Hnew.
Qed.

(** ** Examples tagged for no active task *)

Lemma for_task_name fd st i j :
  name (store (for_task fd st i) !!! j) = name (store st !!! j).
Proof. rewrite for_task_store. case_decide as Hd; [|done]. by destruct Hd as [-> _]. Qed.

Lemma new_data_for_filter (P : Example → Prop) `{!∀ fid, Decision (P fid)} fd task :
  (∀ fid, task_name fid = name task → P fid) →
  new_data_for (filter P fd) task = new_data_for fd task.
Proof. intros HP. unfold new_data_for. by apply list_filter_filter_l. Qed.

Lemma for_tasks_filter (P : Example → Prop) `{!∀ fid, Decision (P fid)} fd l st :
  (∀ i fid, i ∈ l → task_name fid = name (store st !!! i) → P fid) →
  foldl (for_task (filter P fd)) st l = foldl (for_task fd) st l.
Proof.
  revert st. induction l as [|a l IH]; intros st HP; simpl; [done|].
  assert (for_task (filter P fd) st a = for_task fd st a) as ->.
  { unfold for_task. cbn zeta. rewrite new_data_for_filter; [done|].
    intros fid. apply HP. by left. }
  apply IH. intros i fid Hi. rewrite for_task_name. apply HP. by right.
Qed.

(** C9: accepted examples whose [task_name] is the name of no active task
    are in no task's share, and the pass leaves exactly the state it would
    leave had the builder not returned them; routing is total, so the pass
    ends normally and the loop goes on. *)
Theorem unroutable_examples_dropped st fd d :
  merge fd d st = merge (filter (routable st) fd) d st
  ∧ ∀ fid i, fid ∈ fd → ¬ routable st fid → i ∈ tasks st →
             fid ∉ new_data_for fd (store st !!! i).
Proof.
  split.
  - unfold merge. cbn zeta. rewrite for_tasks_filter; [done|].
    intros i fid Hi Hname. apply Exists_exists. by exists i.
  - intros fid i _ Hnot Hi Hin. apply Hnot.
    apply list_elem_of_filter in Hin as [Hname _].
    apply Exists_exists. by exists i.
Qed.

(** ** The iteration budget *)

Lemma never_complete_active st :
  (∀ task, is_complete task = false) →
  loop_inv st → 0 < length (store st) → tasks st ≠ [].
Proof.
  intros Hnever Hinv Hlen Hnil.
  assert (0 ∈ tasks st) as Hin; [|rewrite Hnil in Hin; by apply elem_of_nil in Hin].
  apply (loop_inv_tasks _ _ Hinv). split; [done|].
  destruct Hinv as (_ & _ & Hc). intros Hin%Hc. destruct Hin as [_ Hin].
  by rewrite Hnever in Hin.
Qed.

Lemma iteration_length st : loop_inv st → length (store (iteration st)) = length (store st).
Proof.
  intros Hinv. destruct (response st) as [[fd d] b] eqn:Hresp.
  by destruct (iteration_spec st fd d b (loop_inv_NoDup _ Hinv) Hresp) as (_ & ? & _).
Qed.

Lemma while_never_complete fuel st :
  (∀ task, is_complete task = false) →
  loop_inv st → 0 < length (store st) →
  (Z.to_nat (max_gen_requests + 1 - request_idx st) ≤ fuel)%nat →
  ∃ st', while_loop max_gen_requests fuel st = Some st'
         ∧ length (invocations (trace st'))
           = length (invocations (trace st))
             + Z.to_nat (max_gen_requests + 1 - request_idx st)
         ∧ tasks st' ≠ [].
Proof.
  intros Hnever. revert st. induction fuel as [|fuel IH]; intros st Hinv Hlen Hfuel.
  - pose proof (never_complete_active st Hnever Hinv Hlen) as Hact.
    simpl. unfold loop_condition.
    rewrite bool_decide_eq_true_2 by done. simpl.
    destruct (Z.leb_spec (request_idx st) max_gen_requests); [lia|].
    exists st. split; [done|]. split; [|done].
    replace (Z.to_nat _) with 0%nat by lia. lia.
  - pose proof (never_complete_active st Hnever Hinv Hlen) as Hact.
    simpl. unfold loop_condition.
    rewrite bool_decide_eq_true_2 by done. simpl.
    destruct (Z.leb_spec (request_idx st) max_gen_requests).
    + destruct (IH (iteration st)) as (st' & Hrun & Hcount & Hact').
      * by apply iteration_inv.
      * by rewrite iteration_length.
      * rewrite iteration_request_idx. lia.
      * exists st'. split; [done|]. split; [|done].
        rewrite Hcount, iteration_request_idx.
        destruct (response st) as [[fd d] b] eqn:Hresp.
        destruct (iteration_observed st fd d b Hinv Hresp) as (-> & _).
        rewrite length_app. simpl. lia.
    + exists st. split; [done|]. split; [|done].
      replace (Z.to_nat _) with 0%nat by lia. lia.
Qed.

(** C1 (as the code behaves): for a group with at least one task whose
    tasks never become complete, the loop ends after exactly
    [max_gen_requests + 1] builder invocations when [max_gen_requests] is
    not negative (after none when it is negative), since the counter is
    tested with [<=] before it is incremented. *)
Theorem never_complete_invocation_count restart objs total builder dsk tr :
  (∀ task, is_complete task = false) →
  objs ≠ [] →
  ∃ st', run_tasks max_gen_requests restart (initial_loop objs total builder dsk tr)
         = Some st'
         ∧ length (invocations (trace st'))
           = (length (invocations tr) + Z.to_nat (max_gen_requests + 1))%nat
         ∧ tasks st' ≠ [].
Proof.
  intros Hnever Hobjs. unfold run_tasks.
  set (st0 := group_start restart (initial_loop objs total builder dsk tr)).
  destruct (group_start_observed restart (initial_loop objs total builder dsk tr))
    as (Hinvoke & _ & _ & _ & _ & Hlen & Hidx).
  fold st0 in Hinvoke, Hlen, Hidx.
  destruct (while_never_complete (Z.to_nat (max_gen_requests + 1)) st0)
    as (st' & Hrun & Hcount & Hact).
  - done.
  - apply entry_inv.
  - rewrite Hlen. simpl. destruct objs; [done|simpl; lia].
  - rewrite Hidx. lia.
  - exists st'. split; [done|]. split; [|done].
    rewrite Hcount, Hinvoke, Hidx. simpl. do 2 f_equal. lia.
Qed.

(** ** Reload and append *)

(** C3 (as the code behaves): rehydration assigns the loaded examples to
    the task's generated sequence, so after a load the sequence is exactly
    what [load_data] returned, and loading once more changes neither the
    store nor the file system; appending is plain concatenation, so after a
    pass the sequence of an active task is the previous one followed by the
    task's share, and an example that was already present and is returned
    again for the task occurs twice. *)
Theorem reload_replaces_append_concatenates :
  (∀ st i,
     i < length (store st) →
     path_exists (output_path (store st !!! i)) (fs st) = true →
     let st1 := resume_task false st i in
     machine_data (store st1 !!! i) = load_data (output_path (store st !!! i)) (fs st)
     ∧ store (resume_task false st1 i) = store st1
     ∧ fs (resume_task false st1 i) = fs st)
  ∧ (∀ st fd d b i,
       loop_inv st → response st = (fd, d, b) → i ∈ tasks st →
       machine_data (store (iteration st) !!! i)
       = machine_data (store st !!! i) ++ new_data_for fd (store st !!! i)
       ∧ ∀ e, e ∈ machine_data (store st !!! i) →
              e ∈ new_data_for fd (store st !!! i) →
              ¬ NoDup (machine_data (store (iteration st) !!! i))).
Proof.
  split.
  - intros st i Hi Hex. cbn zeta. unfold resume_task at 1 3 4. simpl. rewrite Hex. simpl.
    rewrite list_lookup_total_insert_eq by done. split; [done|].
    unfold resume_task. simpl. rewrite Hex. simpl.
    rewrite list_lookup_total_insert_eq by done. simpl. rewrite Hex. simpl.
    split; [|done]. by rewrite list_insert_insert_eq.
  - intros st fd d b i Hinv Hresp Hi.
    destruct (iteration_spec st fd d b (loop_inv_NoDup _ Hinv) Hresp) as (Hst & _).
    pose proof (proj1 (loop_inv_tasks _ _ Hinv) Hi) as [Hlt _].
    assert (machine_data (store (iteration st) !!! i)
            = machine_data (store st !!! i) ++ new_data_for fd (store st !!! i)) as Heq.
    { rewrite Hst. case_decide; naive_solver. }
    split; [done|]. intros e Hold Hnew Hnd. rewrite Heq in Hnd.
    apply NoDup_app in Hnd as (_ & Hdisj & _). by apply (Hdisj e).
Qed.

(** ** Discard accounting in the loop *)

Lemma discards_app (l k : list Event) : discards (l ++ k) = discards l ++ discards k.
Proof. apply omap_app. Qed.

Lemma reports_app (l k : list Event) : reports (l ++ k) = reports l ++ reports k.
Proof. apply omap_app. Qed.

Lemma sumZ_app (l k : list Z) : sumZ (l ++ k) = (sumZ l + sumZ k)%Z.
Proof. induction l as [|x l IH]; simpl; [done|]. rewrite IH. lia. Qed.

(** Along the loop the running total grows by what the builder reports as
    discarded; nothing is reported and no directory is touched. *)
Lemma at_loop_head_totals st0 st :
  loop_inv st0 →
  at_loop_head max_gen_requests st0 st →
  (total_discarded st - sumZ (discards (trace st))
   = total_discarded st0 - sumZ (discards (trace st0)))%Z
  ∧ reports (trace st) = reports (trace st0)
  ∧ directories (trace st) = directories (trace st0).
Proof.
  intros Hinv0 Hhead. induction Hhead as [|st Hhead IH Hcond]; [done|].
  destruct IH as (Htot & Hrep & Hdir).
  pose proof (at_loop_head_inv _ _ Hinv0 Hhead) as Hinv.
  destruct (response st) as [[fd d] b] eqn:Hresp.
  destruct (iteration_observed st fd d b Hinv Hresp) as (_ & Hdis & _ & -> & ->).
  destruct (iteration_spec st fd d b (loop_inv_NoDup _ Hinv) Hresp)
    as (_ & _ & _ & _ & _ & _ & _ & Htotal & _).
  rewrite Hdis, Htotal, sumZ_app. simpl. split; [lia|done].
Qed.

Lemma run_tasks_totals restart objs total builder dsk tr st' :
  run_tasks max_gen_requests restart (initial_loop objs total builder dsk tr) = Some st' →
  (total_discarded st' - sumZ (discards (trace st')) = total - sumZ (discards tr))%Z
  ∧ reports (trace st') = reports tr
  ∧ directories (trace st') = directories tr.
Proof.
  unfold run_tasks. intros Hrun. apply while_loop_stops in Hrun as [Hhead _].
  destruct (at_loop_head_totals _ _ (entry_inv restart objs total builder dsk tr) Hhead)
    as (Htot & Hrep & Hdir).
  destruct (group_start_observed restart (initial_loop objs total builder dsk tr))
    as (_ & Hd & Hr & Hdi & Ht & _).
  rewrite Htot, Hrep, Hdir, Hd, Hr, Hdi, Ht. done.
Qed.

End LoopFacts.

(** ** The run *)

Section RunFacts.
Context {FS B Init Config : Type}.
Context `{!Storage FS} `{!DataBuilder B} `{!TaskPolicy} `{!Registry FS B Init Config}.

Implicit Types (w : World FS) (acc : Z * option string).
Implicit Types (item : string * BuilderCfg Config) (task_inits : list Init).

Lemma for_each_app {X A} (body : A → X → M FS A) (xs ys : list X) (a : A) w :
  for_each body (xs ++ ys) a w
  = bind (for_each body xs a) (for_each body ys) w.
Proof.
  revert a w. induction xs as [|x xs IH]; intros a w; [reflexivity|].
  cbn [for_each app]. unfold bind in *.
  destruct (body a x w) as [[a'| |] w']; [|done|done].
  apply IH.
Qed.

(** A group whose tasks have no seed example: the builder is constructed,
    the count is logged and the run exits. *)
Lemma run_group_zero_seeds max_gen_requests data_path output_dir run restart
    task_inits acc builder_name builder_cfg cfg w :
  group_config builder_cfg = Some cfg →
  length (group_objs builder_name output_dir task_inits ≫= seed_data) = 0 →
  run_group max_gen_requests data_path output_dir run restart task_inits acc
            (builder_name, builder_cfg) w
  = (Raised (SystemExit "Nothing to generate. Exiting."),
     mkWorld (w_fs w)
             (w_trace w ++ [Construct builder_name output_dir;
                            Log (LoadedSeeds 0 data_path)])).
Proof.
  intros Hcfg Hseeds. unfold run_group. rewrite Hcfg.
  unfold bind, tell, raise. simpl. rewrite Hseeds. simpl.
  by rewrite <- app_assoc.
Qed.

(** What a group adds to the accumulator and to the trace when it returns,
    and how it can end. *)
Lemma run_group_returned max_gen_requests data_path output_dir run restart
    task_inits acc item w :
  match run_group max_gen_requests data_path output_dir run restart task_inits acc
                  item w with
  | (Returned acc', w') =>
      (acc'.1 - sumZ (discards (w_trace w')) = acc.1 - sumZ (discards (w_trace w)))%Z
      ∧ reports (w_trace w') = reports (w_trace w)
      ∧ (∃ ds, directories (w_trace w') = directories (w_trace w) ++ ds
               ∧ Forall (λ p, p = output_dir) ds)
      ∧ (acc'.2 = None → acc' = acc)
  | (Raised e, w') =>
      e = SystemExit "Nothing to generate. Exiting."
      ∧ ∃ ds, directories (w_trace w') = directories (w_trace w) ++ ds
              ∧ Forall (λ p, p = output_dir) ds
  | (OutOfFuel, _) => False
  end.
Proof.
  destruct item as [builder_name builder_cfg]. unfold run_group.
  destruct (group_config builder_cfg) as [cfg|]; simpl.
  2:{ repeat split; try done. exists []. by rewrite app_nil_r. }
  unfold bind, tell, raise, ask_fs, update_fs, ret. simpl.
  case_bool_decide as Hseeds; simpl.
  { split; [done|]. exists [output_dir]. split; [|by repeat constructor].
    unfold directories. rewrite !omap_app. simpl. by rewrite app_nil_r. }
  destruct (path_exists output_dir (w_fs w)) eqn:Hex; simpl.
  - match goal with |- context [run_tasks ?m ?r ?s] =>
      destruct (run_tasks_total m r s) as [st' Hrun]; rewrite Hrun;
      apply run_tasks_totals in Hrun as (Htot & Hrep & Hdir) end.
    simpl. rewrite Htot, Hrep, Hdir.
    unfold discards, reports, directories. rewrite !omap_app. simpl.
    rewrite !app_nil_r. repeat split; try done.
    exists [output_dir]. split; [done|by repeat constructor].
  - match goal with |- context [run_tasks ?m ?r ?s] =>
      destruct (run_tasks_total m r s) as [st' Hrun]; rewrite Hrun;
      apply run_tasks_totals in Hrun as (Htot & Hrep & Hdir) end.
    simpl. rewrite Htot, Hrep, Hdir.
    unfold discards, reports, directories. rewrite !omap_app. simpl.
    rewrite !app_nil_r. repeat split; try done.
    exists [output_dir; output_dir]. split; [by rewrite <- ?app_assoc|by repeat constructor].
Qed.

Lemma groups_outcome max_gen_requests data_path output_dir run restart
    task_inits items acc w :
  match for_each (run_group max_gen_requests data_path output_dir run restart task_inits)
                 items acc w with
  | (Returned acc', w') =>
      (acc'.1 - sumZ (discards (w_trace w')) = acc.1 - sumZ (discards (w_trace w)))%Z
      ∧ reports (w_trace w') = reports (w_trace w)
      ∧ (∃ ds, directories (w_trace w') = directories (w_trace w) ++ ds
               ∧ Forall (λ p, p = output_dir) ds)
      ∧ (acc'.2 = None → acc' = acc)
  | (Raised e, w') =>
      e = SystemExit "Nothing to generate. Exiting."
      ∧ ∃ ds, directories (w_trace w') = directories (w_trace w) ++ ds
              ∧ Forall (λ p, p = output_dir) ds
  | (OutOfFuel, _) => False
  end.
Proof.
  revert acc w. induction items as [|item items IH]; intros acc w; simpl.
  { unfold ret. repeat split; try done. exists []. by rewrite app_nil_r. }
  unfold bind.
  pose proof (run_group_returned max_gen_requests data_path output_dir run restart
                task_inits acc item w) as Hg.
  destruct (run_group _ _ _ _ _ _ _ _ _) as [[acc1|e|] w1]; [|done|done].
  destruct Hg as (Htot & Hrep & (ds1 & Hdir & Hall) & Hnone).
  specialize (IH acc1 w1).
  destruct (for_each _ _ _ _) as [[acc2|e|] w2]; [| |done].
  - destruct IH as (Htot2 & Hrep2 & (ds2 & Hdir2 & Hall2) & Hnone2).
    split; [lia|]. split; [congruence|]. split.
    + exists (ds1 ++ ds2). rewrite Hdir2, Hdir, <- app_assoc. split; [done|].
      by apply Forall_app.
    + intros Hn. rewrite (Hnone2 Hn) in Hn |- *. by apply Hnone.
  - destruct IH as (He & ds2 & Hdir2 & Hall2). split; [done|].
    exists (ds1 ++ ds2). rewrite Hdir2, Hdir, <- app_assoc. split; [done|].
    by apply Forall_app.
Qed.

Lemma generate_data_missing max_gen_requests data_path output_dir
    include_data_path include_builder_path restart w :
  path_exists data_path (w_fs w) = false →
  generate_data max_gen_requests data_path output_dir include_data_path
                include_builder_path restart w
  = (Raised (SystemExit ("Error: data path (" ++ data_path ++ ") does not exist.")), w).
Proof.
  intros Hex. unfold generate_data, bind, ask_fs, raise. simpl.
  rewrite Hex, andb_false_r. done.
Qed.

(** C8: when the data path does not exist the run raises [SystemExit] with
    a message that contains the path, and the world is untouched: nothing is
    read, no builder is constructed or invoked, nothing is logged. *)
Theorem missing_data_path_is_fatal max_gen_requests data_path output_dir
    include_data_path include_builder_path restart w :
  path_exists data_path (w_fs w) = false →
  generate_data max_gen_requests data_path output_dir include_data_path
                include_builder_path restart w
  = (Raised (SystemExit ("Error: data path (" ++ data_path ++ ") does not exist.")), w).
Proof. apply generate_data_missing. Qed.

(** The run once the data path and the builders have been checked. *)
Lemma generate_data_groups max_gen_requests data_path output_dir
    include_data_path include_builder_path restart w :
  data_path ≠ EmptyString →
  path_exists data_path (w_fs w) = true →
  let task_inits := read_data data_path include_data_path (w_fs w) in
  let builder_list := init_data_builder <$> task_inits in
  let builder_names := gather_builders include_builder_path builder_list (w_fs w) in
  builder_missing builder_list builder_names = [] →
  generate_data max_gen_requests data_path output_dir include_data_path
                include_builder_path restart w
  = bind (for_each
            (run_group max_gen_requests data_path
                       (run_output_dir data_path output_dir (w_fs w))
                       (run_name data_path (w_fs w)) restart task_inits)
            (load_builder_configs include_builder_path builder_names)
            (0%Z, None))
         (λ acc,
            bind (tell ProgressClose)
              (λ _, bind (if bool_decide (acc.1 ≠ 0%Z) then
                            match acc.2 with
                            | Some output_file_discarded =>
                                tell (Log (DiscardedDueToFormat acc.1 output_file_discarded))
                            | None => raise (UnboundLocalError "output_file_discarded")
                            end
                          else ret tt)
                         (λ _, tell (Log GenerationTook)))) w.
Proof.
  intros Hne Hex. cbn zeta. intros Hmiss.
  unfold generate_data. unfold bind at 1 2 3 4. unfold ask_fs. simpl.
  rewrite Hex, bool_decide_eq_true_2 by done. simpl.
  unfold bind at 1 2. simpl. rewrite Hmiss. simpl. done.
Qed.

(** C7: when the tasks of a group that is run have no seed example at
    all, the run raises [SystemExit]; if the groups before it returned, the
    only events of the group are the construction of its builder and the
    log of the seed count, so its builder is never invoked, and no later
    group is started. *)
Theorem zero_seeds_is_fatal max_gen_requests data_path output_dir
    include_data_path include_builder_path restart w
    before builder_name builder_cfg cfg after :
  data_path ≠ EmptyString →
  path_exists data_path (w_fs w) = true →
  let task_inits := read_data data_path include_data_path (w_fs w) in
  let builder_list := init_data_builder <$> task_inits in
  let builder_names := gather_builders include_builder_path builder_list (w_fs w) in
  let out := run_output_dir data_path output_dir (w_fs w) in
  builder_missing builder_list builder_names = [] →
  load_builder_configs include_builder_path builder_names
  = before ++ (builder_name, builder_cfg) :: after →
  group_config builder_cfg = Some cfg →
  length (group_objs builder_name out task_inits ≫= seed_data) = 0 →
  ∃ w',
    generate_data max_gen_requests data_path output_dir include_data_path
                  include_builder_path restart w
    = (Raised (SystemExit "Nothing to generate. Exiting."), w')
    ∧ ∀ acc1 w1,
        for_each (run_group max_gen_requests data_path out
                            (run_name data_path (w_fs w)) restart task_inits)
                 before (0%Z, None) w
        = (Returned acc1, w1) →
        w' = mkWorld (w_fs w1)
                     (w_trace w1 ++ [Construct builder_name out;
                                     Log (LoadedSeeds 0 data_path)]).
Proof.
  intros Hne Hex. cbn zeta. intros Hmiss Hitems Hcfg Hseeds.
  rewrite generate_data_groups by done. rewrite Hitems.
  unfold bind at 1. rewrite for_each_app.
  set (body := run_group _ _ _ _ _ _).
  pose proof (groups_outcome max_gen_requests data_path
                (run_output_dir data_path output_dir (w_fs w))
                (run_name data_path (w_fs w)) restart
                (read_data data_path include_data_path (w_fs w))
                before (0%Z, None) w) as Hbefore.
  fold body in Hbefore. unfold bind at 1.
  destruct (for_each body before (0%Z, None) w) as [[acc1|e|] w1]; [| |done].
  - cbn [for_each]. unfold bind at 1. unfold body at 1.
    rewrite (run_group_zero_seeds _ _ _ _ _ _ _ _ _ cfg) by done.
    eexists. split; [done|]. intros acc2 w2 Heq. by simplify_eq.
  - destruct Hbefore as (-> & _). eexists. split; [done|]. intros ? ? ?. done.
Qed.

(** C5 (as the code behaves): a run that returns keeps one running total
    over all its groups, the sum of the discard counts that the builders
    returned in all passes of all groups; it is reported once, after the
    last group, between closing the progress bar and the final log line,
    and only when it is not zero. *)
Theorem discard_total_reported_once_per_run max_gen_requests data_path output_dir
    include_data_path include_builder_path restart w w' :
  generate_data max_gen_requests data_path output_dir include_data_path
                include_builder_path restart w
  = (Returned tt, w') →
  let total := (sumZ (discards (w_trace w')) - sumZ (discards (w_trace w)))%Z in
  ∃ groups output_file_discarded,
    w_trace w'
    = groups ++ [ProgressClose]
        ++ (if decide (total = 0%Z) then []
            else [Log (DiscardedDueToFormat total output_file_discarded)])
        ++ [Log GenerationTook]
    ∧ discards groups = discards (w_trace w')
    ∧ reports groups = reports (w_trace w)
    ∧ reports (w_trace w')
      = reports (w_trace w) ++ (if decide (total = 0%Z) then [] else [total]).
Proof.
  intros Hrun. cbn zeta.
  destruct (decide (data_path ≠ EmptyString)) as [Hne|Hempty]; cycle 1.
  { exfalso. revert Hrun. unfold generate_data, bind, ask_fs, raise. simpl.
    rewrite bool_decide_eq_false_2 by done. done. }
  destruct (path_exists data_path (w_fs w)) eqn:Hex; cycle 1.
  { by rewrite generate_data_missing in Hrun. }
  destruct (builder_missing
              (init_data_builder <$> read_data data_path include_data_path (w_fs w))
              (gather_builders include_builder_path
                 (init_data_builder <$> read_data data_path include_data_path (w_fs w))
                 (w_fs w))) eqn:Hmiss; cycle 1.
  { exfalso. revert Hrun. unfold generate_data. unfold bind at 1 2 3 4.
    unfold ask_fs. simpl. rewrite Hex, bool_decide_eq_true_2 by done. simpl.
    unfold bind at 1 2. simpl. rewrite Hmiss. done. }
  rewrite generate_data_groups in Hrun by done.
  unfold bind at 1 in Hrun.
  match type of Hrun with context [for_each ?f ?items ?a ?w0] =>
    pose proof (groups_outcome max_gen_requests data_path
                  (run_output_dir data_path output_dir (w_fs w))
                  (run_name data_path (w_fs w)) restart
                  (read_data data_path include_data_path (w_fs w)) items a w0) as Hg
  end.
  destruct (for_each _ _ _ _) as [[[total file]|e|] w1]; [|done|done].
  destruct Hg as (Htot & Hrep & _ & Hnone). simpl in Htot, Hnone.
  unfold bind, tell, raise, ret in Hrun. simpl in Hrun.
  case_bool_decide as Hzero; simpl in Hrun.
  - destruct file as [file|]; [|by specialize (Hnone eq_refl)].
    simpl in Hrun. simplify_eq. simpl.
    rewrite !discards_app, !reports_app. simpl. rewrite !app_nil_r.
    assert (sumZ (discards (w_trace w1)) - sumZ (discards (w_trace w)) = total)%Z
      as -> by lia.
    exists (w_trace w1), file. rewrite !decide_False by done.
    rewrite Hrep. split; [by rewrite <- !app_assoc|done].
  - subst total. simplify_eq. simpl.
    rewrite !discards_app, !reports_app. simpl. rewrite !app_nil_r.
    assert (sumZ (discards (w_trace w1)) - sumZ (discards (w_trace w)) = 0)%Z
      as -> by lia.
    exists (w_trace w1), EmptyString. rewrite !decide_True by done.
    rewrite Hrep, app_nil_r. split; [by rewrite <- !app_assoc|done].
Qed.

End RunFacts.

(** ** Path arithmetic *)

Module PosixFacts.
Import Posix.

Lemma cut_no_slash s : has_slash s = false → cut_after_last slash s = None.
Proof.
  induction s as [|a s IH]; simpl; [done|].
  intros [Ha Hs]%orb_false_iff. rewrite (IH Hs).
  apply bool_decide_eq_false in Ha. by rewrite decide_False.
Qed.


Lemma split_slash_nonempty s : split_slash s ≠ [].
Proof.
  destruct s as [|a s]; simpl; [done|].
  case_decide; [done|]. by destruct (split_slash s).
Qed.

Lemma split_slash_app a b :
  split_slash (a ++ String slash b) = split_slash a ++ split_slash b.
Proof.
  induction a as [|c a IH]; simpl.
  - done.
  - case_decide; [by rewrite IH|]. rewrite IH.
    pose proof (split_slash_nonempty a). by destruct (split_slash a).
Qed.


Lemma last_snoc (l : list string) x d : List.last (l ++ [x]) d = x.
Proof.
  induction l as [|y l IH]; [done|]. simpl.
  destruct (l ++ [x]) eqn:E; [by destruct l|done].
Qed.


Lemma proper_slashes k : filter proper (split_slash (slashes k)) = [].
Proof.
  induction k as [|k IH]; simpl.
  - rewrite filter_cons_False; [done|]. by intros [? _].
  - rewrite filter_cons_False; [done|]. by intros [? _].
Qed.

Lemma append_empty s : (s ++ EmptyString)%string = s.
Proof.
  induction s as [|a s IH]; [done|].
  change (String a (s ++ EmptyString) = String a s). by rewrite IH.
Qed.

(** Trailing slashes do not change the components of a path. *)
Lemma proper_trailing s k :
  filter proper (split_slash (s ++ slashes k)) = filter proper (split_slash s).
Proof.
  destruct k as [|k]; cbn [slashes]; [by rewrite append_empty|].
  rewrite split_slash_app, filter_app, proper_slashes. by rewrite app_nil_r.
Qed.





End PosixFacts.

(** ** Where the run writes *)

Section NamingFacts.
Context {FS B Init Config : Type}.
Context `{!Storage FS} `{!DataBuilder B} `{!TaskPolicy} `{!Registry FS B Init Config}.

Implicit Types (w : World FS).






End NamingFacts.

(** ** The properties on the sample inputs *)

Section TwoTasks.
Import Sample.
#[local] Existing Instance two_policy.
#[local] Existing Instance two_registry.

(** The loop of the two-task group is entered with both tasks active; after
    the first pass B is complete. *)
Lemma two_tasks_after_first_pass :
  at_loop_head 5 (group_start false (initial_loop two_objs 0 two_script input_disk []))
    (iteration (group_start false (initial_loop two_objs 0 two_script input_disk []))).
Proof. apply head_next; [apply head_entry|reflexivity]. Defined.

Lemma pool_is_union_of_active_tasks_witness :
  let st := iteration (group_start false (initial_loop two_objs 0 two_script input_disk [])) in
  invocations (trace (iteration st))
  = invocations (trace st) ++ [(2%Z, [seed_a; a1])]
  ∧ tasks st = [0]
  ∧ completed_tasks st = [1].
Proof.
  destruct (pool_is_union_of_active_tasks 5 false two_objs 0 two_script input_disk []
              _ two_tasks_after_first_pass eq_refl) as (Hpool & Hactive & _).
  split; [exact Hpool|]. split; [exact Hactive|reflexivity].
Defined.

Lemma save_once_per_active_task_witness :
  let st := iteration (group_start false (initial_loop two_objs 0 two_script input_disk [])) in
  saves (trace (iteration st)) = saves (trace st) ++ [(0, [a2])]
  ∧ NoDup (tasks st)
  ∧ ∀ i, i ∈ completed_tasks st → i ∉ tasks st.
Proof.
  destruct (save_once_per_active_task 5 false two_objs 0 two_script input_disk []
              _ [a2; b2] 0%Z two_script two_tasks_after_first_pass eq_refl eq_refl)
    as (Hsaves & _ & Hnd & Hdone).
  split; [exact Hsaves|]. split; [exact Hnd|exact Hdone].
Defined.

(** In the first pass nothing is tagged for nobody, and both tasks are
    saved, B on completing. *)
Lemma two_tasks_first_pass_saves :
  saves (trace (iteration (group_start false
                             (initial_loop two_objs 0 two_script input_disk []))))
  = [(0, [a1]); (1, [b1])].
Proof. reflexivity. Qed.

Lemma completed_task_never_revived_witness :
  let st0 := group_start false (initial_loop two_objs 0 two_script input_disk []) in
  let st1 := iteration st0 in
  (machine_data (store st1 !!! 1) = [b1]
   ∧ (1, [b1]) ∈ drop (length (saves (trace st0))) (saves (trace st1))
   ∧ 1 ∈ completed_tasks st1
   ∧ (1 ∉ tasks st1))
  ∧ (1 ∈ completed_tasks (iteration st1)
     ∧ (1 ∉ tasks (iteration st1))
     ∧ store (iteration st1) !!! 1 = store st1 !!! 1).
Proof.
  cbn zeta. split.
  - destruct (completed_task_never_revived 5 false two_objs 0 two_script input_disk []
                _ (head_entry _ _)) as [_ Hflight].
    destruct (Hflight 1 [a1; b1] 3%Z two_script eq_refl eq_refl) as (H1 & H2 & H3 & H4 & _).
    + vm_compute. apply list_elem_of_In. right. left. reflexivity.
    + reflexivity.
    + split; [exact H1|]. split; [exact H2|]. split; [exact H3|exact H4].
  - destruct (completed_task_never_revived 5 false two_objs 0 two_script input_disk []
                _ two_tasks_after_first_pass) as [Hstay _].
    apply (Hstay 1).
    + vm_compute. lia.
    + reflexivity.
    + apply head_next; [apply head_entry|reflexivity].
Defined.

(** C5 on the sample run: the counts 3, 0 and 5 of the three passes are
    reported as a total of 8. *)
Lemma discard_total_reported_once_per_run_witness :
  let w' := (generate_data 5 "data/qna.yaml" "out" None None false
               (empty_world input_disk)).2 in
  discards (w_trace w') = [3; 0; 5]%Z ∧ reports (w_trace w') = [8%Z].
Proof.
  cbn zeta.
  assert (generate_data 5 "data/qna.yaml" "out" None None false (empty_world input_disk)
          = (Returned tt,
             (generate_data 5 "data/qna.yaml" "out" None None false
                (empty_world input_disk)).2)) as Hrun by (vm_compute; reflexivity).
  destruct (discard_total_reported_once_per_run 5 "data/qna.yaml" "out" None None false
              (empty_world input_disk) _ Hrun)
    as (groups & file & _ & _ & _ & Hreports).
  split; [reflexivity|exact Hreports].
Defined.


(** In the second pass B is no longer active: the example tagged for B is
    dropped, and the pass is the one the answer [[a2]] would give. *)
Lemma unroutable_examples_dropped_witness :
  let st := iteration (group_start false (initial_loop two_objs 0 two_script input_disk [])) in
  merge [a2; b2] 0 st = merge [a2] 0 st
  ∧ b2 ∉ new_data_for [a2; b2] (store st !!! 0).
Proof.
  cbn zeta.
  destruct (unroutable_examples_dropped
              (iteration (group_start false
                            (initial_loop two_objs 0 two_script input_disk [])))
              [a2; b2] 0) as [Hmerge Hdrop].
  split; [exact Hmerge|]. apply (Hdrop b2 0).
  - apply list_elem_of_In. right. left. reflexivity.
  - intros Hroutable. apply Exists_exists in Hroutable as (i & Hi & Hname).
    vm_compute in Hi. apply list_elem_of_In in Hi. destruct Hi as [<-|[]].
    discriminate.
  - vm_compute. apply list_elem_of_In. left. reflexivity.
Defined.

End TwoTasks.

Section TwoTasksNaming.
Import Sample.
#[local] Existing Instance two_policy.
#[local] Existing Instance two_registry.


End TwoTasksNaming.

Section Stuck.
Import Sample.
#[local] Existing Instance never_complete.

Lemma never_complete_invocation_count_witness :
  ∃ st', run_tasks 3 false (initial_loop stuck_objs 0 (rejecting 1) input_disk [])
         = Some st'
         ∧ length (invocations (trace st')) = (0 + 4)%nat
         ∧ tasks st' ≠ [].
Proof.
  assert (stuck_objs ≠ []) as Hobjs by discriminate.
  exact (never_complete_invocation_count 3 false stuck_objs 0 (rejecting 1) input_disk []
           (λ _, eq_refl) Hobjs).
Defined.

(** With [max_gen_requests = 3] the builder is called with the request
    indices 1, 2, 3 and 4. *)
Lemma four_requests_for_a_budget_of_three :
  (λ st', (invocations (trace st')).*1)
    <$> run_tasks 3 false (initial_loop stuck_objs 0 (rejecting 1) input_disk [])
  = Some [1; 2; 3; 4]%Z.
Proof. vm_compute. reflexivity. Qed.

End Stuck.

Section Resumed.
Import Sample.
#[local] Existing Instance resumed_policy.

(** C3, counterexample: the task is reloaded with [a1]; the builder returns
    its pool, in which [a1] occurs, and [a1] is appended a second time. *)
Lemma reload_then_append_reintroduces :
  load_data "out/data/A.jsonl" resumed_disk = [a1]
  ∧ (λ st', machine_data (store st' !!! 0))
      <$> run_tasks 0 false (initial_loop stuck_objs 0 echo resumed_disk [])
    = Some [a1; seed_a; a1]
  ∧ ¬ no_reintroduction [a1] [a1; seed_a; a1].
Proof.
  split; [vm_compute; reflexivity|]. split; [vm_compute; reflexivity|].
  intros Hno. assert (a1 ∈ [a1]) as Hin by (by left).
  specialize (Hno a1 Hin). vm_compute in Hno. lia.
Qed.

Lemma reload_replaces_append_concatenates_witness :
  let st := initial_loop stuck_objs 0 echo resumed_disk [] in
  let st1 := resume_task false st 0 in
  machine_data (store st1 !!! 0) = [a1]
  ∧ store (resume_task false st1 0) = store st1.
Proof.
  cbn zeta.
  destruct (reload_replaces_append_concatenates (FS := Disk) (B := Responder))
    as [Hload _].
  destruct (Hload (initial_loop stuck_objs 0 echo resumed_disk []) 0) as (H1 & H2 & _).
  - vm_compute. lia.
  - reflexivity.
  - split; [exact H1|exact H2].
Defined.

End Resumed.

Section TwoGroups.
Import Sample.
#[local] Existing Instance group_policy.
#[local] Existing Instance group_registry.

(** C5, counterexample: two groups whose builders discard 3 and 5
    candidates; nothing is reported at the end of the first group, and the
    single report, after the second group, is the total 8 of the run. *)
Lemma discard_total_not_per_group :
  let tr := w_trace (generate_data 0 "data/qna.yaml" "out" None None false
                       (empty_world input_disk)).2 in
  (λ group, sumZ (discards group)) <$> group_traces tr = [3; 5]%Z
  ∧ reports <$> group_traces tr = [[]; [8%Z]]
  ∧ ¬ reported_per_group tr.
Proof.
  cbn zeta. split; [vm_compute; reflexivity|]. split; [vm_compute; reflexivity|].
  unfold reported_per_group.
  match goal with |- ¬ Forall _ ?groups =>
    let v := eval vm_compute in groups in
    assert (groups = v) as -> by (vm_compute; reflexivity)
  end.
  intros Hper. apply Forall_cons in Hper as [Hfirst _].
  vm_compute in Hfirst. discriminate.
Qed.

End TwoGroups.

Section Seedless.
Import Sample.
#[local] Existing Instance seedless_policy.
#[local] Existing Instance seedless_registry.

Lemma zero_seeds_is_fatal_witness :
  ∃ w',
    generate_data 5 "data/qna.yaml" "out" None None false (empty_world input_disk)
    = (Raised (SystemExit "Nothing to generate. Exiting."), w')
    ∧ invocations (w_trace w') = []
    ∧ w_fs w' = input_disk.
Proof.
  destruct (zero_seeds_is_fatal 5 "data/qna.yaml" "out" None None false
              (empty_world input_disk) [] "b" (Plain tt) tt [])
    as (w' & Hrun & Hw');
    [discriminate|reflexivity|reflexivity|reflexivity|reflexivity|reflexivity|].
  exists w'. split; [exact Hrun|].
  rewrite (Hw' (0%Z, None) (empty_world input_disk) eq_refl). split; reflexivity.
Defined.

Lemma missing_data_path_is_fatal_witness :
  generate_data 5 "data/missing.yaml" "out" None None false (empty_world input_disk)
  = (Raised (SystemExit "Error: data path (data/missing.yaml) does not exist."),
     empty_world input_disk).
Proof.
  exact (missing_data_path_is_fatal 5 "data/missing.yaml" "out" None None false
           (empty_world input_disk) eq_refl).
Defined.

End Seedless.

(** * Further properties of the loop *)

Section LoopExtras.
Context {FS B : Type} `{!Storage FS} `{!DataBuilder B} `{!TaskPolicy}.
Variable max_gen_requests : Z.

Implicit Types (st : Loop FS B) (i j : nat) (fd : list Example) (l : list nat).
Implicit Types (builder b : B) (dsk : FS) (objs : list SdgTask) (tr : list Event).

(** ** Request indices *)

Lemma seqZ_snoc (m k : Z) : (0 ≤ k)%Z → seqZ m (k + 1) = seqZ m k ++ [(m + k)%Z].
Proof.
  intros Hk. rewrite seqZ_app by lia. reflexivity.
Qed.

Lemma head_indices st0 st :
  loop_inv st0 →
  at_loop_head max_gen_requests st0 st →
  (invocations (trace st)).*1
  = (invocations (trace st0)).*1
      ++ seqZ (request_idx st0 + 1) (request_idx st - request_idx st0)
  ∧ (request_idx st0 ≤ request_idx st)%Z
  ∧ (request_idx st ≤ Z.max (request_idx st0) (max_gen_requests + 1))%Z.
Proof.
  intros Hinv0 Hhead. induction Hhead as [|st Hhead IH Hcond].
  - rewrite Z.sub_diag, seqZ_nil, app_nil_r by lia. split; [done|lia].
  - destruct IH as (Hidx & Hle & Hmax).
    pose proof (at_loop_head_inv _ _ _ Hinv0 Hhead) as Hinv.
    destruct (response st) as [[fd d] b] eqn:Hresp.
    destruct (iteration_observed st fd d b Hinv Hresp) as (-> & _).
    rewrite iteration_request_idx, fmap_app, Hidx, <- app_assoc. simpl.
    unfold loop_condition in Hcond. apply andb_true_iff in Hcond as [_ Hcond].
    apply Z.leb_le in Hcond.
    replace (request_idx st + 1 - request_idx st0)%Z
      with (request_idx st - request_idx st0 + 1)%Z by lia.
    rewrite seqZ_snoc by lia. split; [|lia]. do 3 f_equal. lia.
Qed.

(** X1: the loop of a group always ends; the builder has then been called
    with the request indices 1, 2, ..., n in this order, where n is at most
    [max_gen_requests + 1] (and 0 for a negative maximum), and when tasks
    are left incomplete n is exactly that bound. *)
Theorem invocation_indices restart objs total builder dsk tr :
  ∃ st',
    run_tasks max_gen_requests restart (initial_loop objs total builder dsk tr) = Some st'
    ∧ (invocations (trace st')).*1 = (invocations tr).*1 ++ seqZ 1 (request_idx st')
    ∧ (0 ≤ request_idx st' ≤ Z.max 0 (max_gen_requests + 1))%Z
    ∧ (tasks st' ≠ [] → request_idx st' = Z.max 0 (max_gen_requests + 1)).
Proof.
  destruct (run_tasks_total max_gen_requests restart
              (initial_loop objs total builder dsk tr)) as [st' Hrun].
  exists st'. split; [done|].
  unfold run_tasks in Hrun. apply while_loop_stops in Hrun as [Hhead Hstop].
  destruct (head_indices _ _ (entry_inv restart objs total builder dsk tr) Hhead)
    as (Hidx & Hle & Hmax).
  destruct (group_start_observed restart (initial_loop objs total builder dsk tr))
    as (Hinvoke & _ & _ & _ & _ & _ & Hzero).
  rewrite Hinvoke, Hzero in Hidx. rewrite Hzero in Hle, Hmax. simpl in Hidx.
  rewrite Z.sub_0_r in Hidx. split; [done|]. split; [lia|].
  intros Hleft. unfold loop_condition in Hstop.
  rewrite bool_decide_eq_true_2 in Hstop by done. simpl in Hstop.
  apply Z.leb_gt in Hstop. lia.
Qed.

(** ** Groups with nothing to do *)

Lemma saves_app (l k : list Event) : saves (l ++ k) = saves l ++ saves k.
Proof. apply omap_app. Qed.

Lemma progress_updates_app (l k : list Event) :
  progress_updates (l ++ k) = progress_updates l + progress_updates k.
Proof. unfold progress_updates. by rewrite filter_app, length_app. Qed.

Lemma resume_quiet restart l st :
  saves (trace (foldl (resume_task restart) st l)) = saves (trace st)
  ∧ progress_updates (trace (foldl (resume_task restart) st l))
    = progress_updates (trace st).
Proof.
  revert st. induction l as [|a l IH]; intros st; simpl; [done|].
  destruct (IH (resume_task restart st a)) as (-> & ->).
  unfold resume_task.
  destruct restart; simpl; destruct (path_exists _ _); simpl;
    rewrite ?saves_app, ?progress_updates_app; simpl;
    rewrite ?app_nil_r; (split; [done|]); try done;
    unfold progress_updates; rewrite ?filter_cons_False by done;
    rewrite ?filter_nil; simpl; lia.
Qed.

Lemma group_start_quiet restart st :
  saves (trace (group_start restart st)) = saves (trace st)
  ∧ progress_updates (trace (group_start restart st)) = progress_updates (trace st).
Proof. unfold group_start, prefilter. simpl. apply resume_quiet. Qed.

(** X2: when the maximum is negative, or every task of the group is
    already complete once it has been resumed, the loop body is never
    entered: the builder is not invoked and nothing is saved. *)
Theorem nothing_to_generate restart objs total builder dsk tr :
  let entry := group_start restart (initial_loop objs total builder dsk tr) in
  (max_gen_requests < 0)%Z
  ∨ (∀ i, i < length objs → is_complete (store entry !!! i) = true) →
  run_tasks max_gen_requests restart (initial_loop objs total builder dsk tr) = Some entry
  ∧ invocations (trace entry) = invocations tr
  ∧ saves (trace entry) = saves tr.
Proof.
  cbn zeta. intros Hwhy.
  set (entry := group_start restart (initial_loop objs total builder dsk tr)) in *.
  destruct (group_start_observed restart (initial_loop objs total builder dsk tr))
    as (Hinvoke & _ & _ & _ & _ & Hlen & Hzero).
  destruct (group_start_quiet restart (initial_loop objs total builder dsk tr))
    as (Hsaves & _).
  fold entry in Hinvoke, Hlen, Hzero, Hsaves.
  split; [|by split].
  assert (loop_condition max_gen_requests entry = false) as Hstop.
  { unfold loop_condition. destruct Hwhy as [Hneg|Hdone].
    - rewrite Hzero. apply andb_false_iff. right. apply Z.leb_gt. lia.
    - apply andb_false_iff. left. apply bool_decide_eq_false. intros Hne. apply Hne.
      pose proof (entry_inv restart objs total builder dsk tr) as Hinv. fold entry in Hinv.
      destruct (tasks entry) as [|i rest] eqn:Hta; [done|].
      assert (i ∈ tasks entry) as Hi by (rewrite Hta; by left).
      pose proof (loop_inv_active _ _ Hinv Hi) as Hactive.
      apply (loop_inv_tasks _ _ Hinv) in Hi as [Hlt _].
      rewrite Hlen in Hlt. simpl in Hlt. rewrite (Hdone i Hlt) in Hactive. done. }
  unfold run_tasks. fold entry. destruct (Z.to_nat _); simpl; by rewrite Hstop.
Qed.

(** ** The two task lists *)

Lemma fmap_seq_lookup (g : SdgTask → nat) (tasks0 : list SdgTask) :
  (λ i, g (tasks0 !!! i)) <$> seq 0 (length tasks0) = g <$> tasks0.
Proof.
  apply list_eq. intros i. rewrite !list_lookup_fmap.
  destruct (decide (i < length tasks0)) as [Hlt|Hge].
  - rewrite lookup_seq_lt by done. simpl.
    destruct (lookup_lt_is_Some_2 tasks0 i Hlt) as [task Htask].
    rewrite Htask. simpl. by rewrite (list_lookup_total_correct _ _ _ Htask).
  - rewrite lookup_seq_ge by lia. by rewrite lookup_ge_None_2 by lia.
Qed.

Lemma partition_of_group st :
  loop_inv st → tasks st ++ completed_tasks st ≡ₚ group_tasks st.
Proof.
  intros (Hta & Hnd & Hc). rewrite Hta.
  rewrite <- (filter_app_complement (λ i, i ∉ completed_tasks st) (group_tasks st)) at 2.
  f_equiv. apply NoDup_Permutation; [done|apply NoDup_filter, NoDup_seq|].
  intros i. rewrite list_elem_of_filter. unfold group_tasks. rewrite elem_of_seq, Hc.
  split.
  - intros [Hlt Hdone]. split; [|lia]. intros Hnot. by apply Hnot.
  - intros [Hin _]. by apply dec_stable in Hin.
Qed.

Lemma head_length st0 st :
  loop_inv st0 → at_loop_head max_gen_requests st0 st →
  length (store st) = length (store st0).
Proof.
  intros Hinv0 Hhead. induction Hhead as [|st1 Hhead IH Hcond]; [done|].
  rewrite iteration_length; [done|]. apply (at_loop_head_inv _ _ _ Hinv0 Hhead).
Qed.

(** X3: at every head of the loop each task of the group is in exactly one
    of the lists [tasks] and [completed_tasks], and the count that a pass
    logs as generated is the number of generated examples of all tasks of
    the group, completed or not. *)
Theorem every_task_in_one_list restart objs total builder dsk tr st fd d b :
  at_loop_head max_gen_requests
    (group_start restart (initial_loop objs total builder dsk tr)) st →
  response st = (fd, d, b) →
  tasks st ++ completed_tasks st ≡ₚ seq 0 (length objs)
  ∧ last (trace (iteration st))
    = Some (Log (Generated
                   (sum_list ((λ task, length (machine_data task))
                                <$> store (iteration st))) d)).
Proof.
  intros Hhead Hresp.
  pose proof (entry_inv restart objs total builder dsk tr) as Hinv0.
  pose proof (at_loop_head_inv _ _ _ Hinv0 Hhead) as Hinv.
  split.
  - rewrite (partition_of_group _ Hinv). unfold group_tasks.
    rewrite (head_length _ _ Hinv0 Hhead).
    by destruct (group_start_observed restart (initial_loop objs total builder dsk tr))
      as (_ & _ & _ & _ & _ & -> & _).
  - destruct (iteration_spec st fd d b (loop_inv_NoDup _ Hinv) Hresp)
      as (_ & _ & _ & _ & -> & _).
    rewrite !app_assoc, last_snoc. do 3 f_equal.
    unfold generated_count.
    rewrite (partition_of_group _ (iteration_inv _ Hinv)). unfold group_tasks.
    by rewrite (fmap_seq_lookup (λ task, length (machine_data task))).
Qed.

(** ** Generated examples are only appended *)

Lemma iteration_grows st i :
  loop_inv st →
  name (store (iteration st) !!! i) = name (store st !!! i)
  ∧ output_path (store (iteration st) !!! i) = output_path (store st !!! i)
  ∧ seed_data (store (iteration st) !!! i) = seed_data (store st !!! i)
  ∧ machine_data (store st !!! i) `prefix_of` machine_data (store (iteration st) !!! i).
Proof.
  intros Hinv. destruct (response st) as [[fd d] b] eqn:Hresp.
  destruct (iteration_spec st fd d b (loop_inv_NoDup _ Hinv) Hresp) as (-> & _).
  case_decide; [|done]. unfold extended, extend. simpl.
  repeat split. by apply prefix_app_r.
Qed.

Lemma loop_grows st st' i :
  loop_inv st →
  at_loop_head max_gen_requests st st' →
  name (store st' !!! i) = name (store st !!! i)
  ∧ output_path (store st' !!! i) = output_path (store st !!! i)
  ∧ seed_data (store st' !!! i) = seed_data (store st !!! i)
  ∧ machine_data (store st !!! i) `prefix_of` machine_data (store st' !!! i).
Proof.
  intros Hinv Hhead. induction Hhead as [|st1 Hhead IH Hcond]; [done|].
  destruct IH as (Hn & Ho & Hs & Hm).
  destruct (iteration_grows st1 i (at_loop_head_inv _ _ _ Hinv Hhead))
    as (-> & -> & -> & Hm1).
  repeat split; try done. by etrans.
Qed.

(** X4: between two heads of the loop the name, the output path and the
    seed examples of every task are unchanged, and its generated examples
    are only appended to: what was generated earlier is a prefix of what
    is there later. *)
Theorem generated_examples_only_grow restart objs total builder dsk tr st st' i :
  at_loop_head max_gen_requests
    (group_start restart (initial_loop objs total builder dsk tr)) st →
  at_loop_head max_gen_requests st st' →
  name (store st' !!! i) = name (store st !!! i)
  ∧ output_path (store st' !!! i) = output_path (store st !!! i)
  ∧ seed_data (store st' !!! i) = seed_data (store st !!! i)
  ∧ machine_data (store st !!! i) `prefix_of` machine_data (store st' !!! i).
Proof.
  intros Hhead Hlater. apply loop_grows; [|done].
  apply (at_loop_head_inv _ _ _ (entry_inv restart objs total builder dsk tr) Hhead).
Qed.

(** ** The progress bar *)

Lemma task_events_progress fd st l :
  progress_updates (l ≫= task_events fd st)
  = length (filter (λ i, is_complete (extended fd st i) = true) l).
Proof.
  induction l as [|a l IH]; [done|].
  rewrite bind_cons, progress_updates_app, IH, filter_cons.
  unfold task_events, progress_updates.
  by destruct (is_complete (extended fd st a)).
Qed.

Lemma head_progress st0 st :
  loop_inv st0 →
  at_loop_head max_gen_requests st0 st →
  progress_updates (trace st) + length (completed_tasks st0)
  = progress_updates (trace st0) + length (completed_tasks st).
Proof.
  intros Hinv0 Hhead. induction Hhead as [|st Hhead IH Hcond]; [done|].
  pose proof (at_loop_head_inv _ _ _ Hinv0 Hhead) as Hinv.
  destruct (response st) as [[fd d] b] eqn:Hresp.
  destruct (iteration_spec st fd d b (loop_inv_NoDup _ Hinv) Hresp)
    as (_ & _ & -> & _ & -> & _).
  rewrite !progress_updates_app, task_events_progress, length_app.
  unfold progress_updates at 2 3. rewrite !filter_cons_False by done.
  rewrite filter_nil. simpl. lia.
Qed.

(** X5: the progress bar is advanced once for every task that becomes
    complete in the loop, and not for the tasks that are already complete
    when the loop is entered. *)
Theorem progress_counts_completions restart objs total builder dsk tr :
  ∃ st',
    run_tasks max_gen_requests restart (initial_loop objs total builder dsk tr) = Some st'
    ∧ progress_updates (trace st')
        + length (completed_tasks
                    (group_start restart (initial_loop objs total builder dsk tr)))
      = progress_updates tr + length (completed_tasks st').
Proof.
  destruct (run_tasks_total max_gen_requests restart
              (initial_loop objs total builder dsk tr)) as [st' Hrun].
  exists st'. split; [done|].
  unfold run_tasks in Hrun. apply while_loop_stops in Hrun as [Hhead _].
  rewrite (head_progress _ _ (entry_inv restart objs total builder dsk tr) Hhead).
  by destruct (group_start_quiet restart (initial_loop objs total builder dsk tr))
    as (_ & ->).
Qed.

(** ** The resume step *)

Lemma clears_app (l k : list Event) : clears (l ++ k) = clears l ++ clears k.
Proof. apply omap_app. Qed.

Lemma loads_app (l k : list Event) : loads (l ++ k) = loads l ++ loads k.
Proof. apply omap_app. Qed.

(** One resume step: the task object is replaced by its resumed version,
    as seen on the file system left by the optional clear. *)
Lemma resume_task_spec (restart : bool) st i :
  let seen := if restart then clear_data (output_path (store st !!! i)) (fs st)
              else fs st in
  store (resume_task restart st i) = <[i := resumed (store st !!! i) seen]> (store st)
  ∧ fs (resume_task restart st i) = seen
  ∧ clears (trace (resume_task restart st i))
    = clears (trace st) ++ (if restart then [i] else [])
  ∧ loads (trace (resume_task restart st i))
    = loads (trace st)
        ++ (if path_exists (output_path (store st !!! i)) seen then [i] else []).
Proof.
  assert (<[i := (store st !!! i : SdgTask)]> (store st) = store st) as Hid.
  { destruct (decide (i < length (store st))) as [Hlt|Hge].
    - apply list_insert_id. by apply list_lookup_lookup_total_lt.
    - apply list_insert_ge. lia. }
  unfold resume_task, resumed. cbn zeta.
  destruct restart; simpl; destruct (path_exists _ _); simpl;
    rewrite ?clears_app, ?loads_app; simpl; rewrite ?app_nil_r; by rewrite ?Hid.
Qed.

Lemma cleared_step (restart : bool) objs k dsk :
  k < length objs →
  (if restart
   then clear_data (output_path (objs !!! k))
          (foldl (λ d task, clear_data (output_path task) d) dsk (take k objs))
   else dsk)
  = cleared restart objs k dsk.
Proof.
  intros Hk. unfold cleared. destruct restart; [|done].
  rewrite (take_S_r objs k (objs !!! k)) by (by apply list_lookup_lookup_total_lt).
  by rewrite foldl_app.
Qed.

Lemma resume_prefix (restart : bool) objs (total : Z) builder dsk tr (k : nat) :
  (k ≤ length objs)%nat →
  let st := foldl (resume_task restart) (initial_loop objs total builder dsk tr)
                  (seq 0 k) in
  length (store st) = length objs
  ∧ (∀ j, store st !!! j
          = if decide (j < k) then resumed (objs !!! j) (cleared restart objs j dsk)
            else objs !!! j)
  ∧ fs st = (if restart
             then foldl (λ d task, clear_data (output_path task) d) dsk (take k objs)
             else dsk)
  ∧ clears (trace st) = clears tr ++ (if restart then seq 0 k else [])
  ∧ loads (trace st)
    = loads tr
        ++ filter (λ j, path_exists (output_path (objs !!! j))
                                    (cleared restart objs j dsk) = true) (seq 0 k).
Proof.
  induction k as [|k IH]; intros Hk; cbn zeta.
  { simpl. destruct restart; simpl; rewrite ?app_nil_r; repeat split; try done.
    all: intros j; by rewrite decide_False by lia. }
  destruct IH as (Hlen & Hst & Hfs & Hcl & Hlo); [lia|].
  rewrite seq_S, foldl_app. cbn [foldl Nat.add].
  set (st := foldl (resume_task restart) _ (seq 0 k)) in *.
  destruct (resume_task_spec restart st k) as (Hstore & Hseen & Hclears & Hloads).
  assert (store st !!! k = objs !!! k) as Hk0.
  { rewrite Hst. rewrite decide_False by lia. done. }
  assert ((if restart then clear_data (output_path (store st !!! k)) (fs st) else fs st)
          = cleared restart objs k dsk) as Heq.
  { rewrite Hk0, Hfs. destruct restart; [|done]. by apply (cleared_step true). }
  cbn zeta in Hstore, Hseen, Hloads. rewrite Heq in Hstore, Hseen, Hloads.
  rewrite Hk0 in Hstore, Hloads.
  split; [by rewrite Hstore, length_insert|]. split; [|split; [|split]].
  - intros j. rewrite Hstore, list_lookup_total_insert, Hst, Hlen.
    destruct (decide (k = j ∧ k < length objs)) as [[-> _]|Hn].
    + by rewrite decide_True by lia.
    + destruct (decide (j < k)); [by rewrite decide_True by lia|].
      rewrite decide_False; [done|]. intros ?. apply Hn. split; lia.
  - rewrite Hseen. unfold cleared. by destruct restart.
  - rewrite Hclears, Hcl. destruct restart; rewrite <- ?app_assoc; by rewrite ?app_nil_r.
  - rewrite Hloads, Hlo, filter_app, <- app_assoc. f_equal. f_equal.
    rewrite filter_cons, filter_nil. by destruct (path_exists _ _).
Qed.

(** X6: when the loop is entered every task object has been resumed: its
    generated examples are what [load_data] returns if its output path
    exists, and are as constructed otherwise.  With the restart flag the
    outputs of all tasks have been cleared first, each before its own
    existence test, and a task whose output still exists after the clear
    is loaded all the same; without the flag the file system is untouched.
    [clear_data] and [load_data] are called at most once per task, in
    order. *)
Theorem resume_loads_persisted_output restart objs total builder dsk tr :
  let entry := group_start restart (initial_loop objs total builder dsk tr) in
  length (store entry) = length objs
  ∧ (∀ i, i < length objs →
          store entry !!! i = resumed (objs !!! i) (cleared restart objs i dsk))
  ∧ fs entry
    = (if restart then foldl (λ d task, clear_data (output_path task) d) dsk objs
       else dsk)
  ∧ clears (trace entry) = clears tr ++ (if restart then seq 0 (length objs) else [])
  ∧ loads (trace entry)
    = loads tr
        ++ filter (λ i, path_exists (output_path (objs !!! i))
                                    (cleared restart objs i dsk) = true)
                  (seq 0 (length objs)).
Proof.
  cbn zeta. unfold group_start, prefilter. simpl.
  destruct (resume_prefix restart objs total builder dsk tr (length objs))
    as (Hlen & Hst & Hfs & Hcl & Hlo); [done|].
  rewrite firstn_all in Hfs.
  split; [done|]. split; [|done].
  intros i Hi. rewrite Hst. by rewrite decide_True.
Qed.

End LoopExtras.

(** * Further properties of the run *)

Section RunExtras.
Context {FS B Init Config : Type}.
Context `{!Storage FS} `{!DataBuilder B} `{!TaskPolicy} `{!Registry FS B Init Config}.

Implicit Types (w : World FS) (acc : Z * option string).
Implicit Types (items : list (string * BuilderCfg Config)) (task_inits : list Init).

(** ** Resolving the builders *)

Lemma in_builder_names_app (builder : string) (l k : list (string + Config)) :
  in_builder_names builder (l ++ k)
  = in_builder_names builder l || in_builder_names builder k.
Proof. unfold in_builder_names. apply existsb_app. Qed.

Lemma in_builder_names_configs (builder : string) (cfgs : list Config) :
  in_builder_names (Config := Config) builder (inr <$> cfgs) = false.
Proof. induction cfgs as [|c cfgs IH]; [done|]. simpl. exact IH. Qed.

Lemma in_builder_names_strings (builder : string) (names : list string) :
  in_builder_names (Config := Config) builder (inl <$> names) = true ↔ builder ∈ names.
Proof.
  induction names as [|n names IH]; simpl.
  - split; [done|]. intros Hin. by apply elem_of_nil in Hin.
  - rewrite orb_true_iff, IH, bool_decide_eq_true, elem_of_cons. naive_solver.
Qed.

Lemma builder_missing_iff include_builder_path (builder_list : list string)
    (dsk : FS) (builder : string) :
  builder ∈ builder_missing builder_list
              (gather_builders include_builder_path builder_list dsk)
  ↔ builder ∈ builder_list
    ∧ (builder ∉ match_builders include_builder_path builder_list)
    ∧ has_star builder = false.
Proof.
  unfold builder_missing. rewrite elem_of_remove_dups, list_elem_of_filter.
  unfold gather_builders. rewrite in_builder_names_app, in_builder_names_configs.
  rewrite orb_false_r.
  pose proof (in_builder_names_strings builder
                (match_builders include_builder_path builder_list)) as Hin.
  destruct (in_builder_names builder _); naive_solver.
Qed.

(** X7: a builder is reported missing exactly when a task names it, the
    index does not match it and its name holds no star; a configuration
    file that was loaded for it (lines 51-56) does not resolve it, since the
    test compares strings.  Every missing builder is listed once. *)
Theorem missing_builders_characterised include_builder_path
    (builder_list : list string) (dsk : FS) :
  let missing :=
    builder_missing builder_list
      (gather_builders include_builder_path builder_list dsk) in
  NoDup missing
  ∧ ∀ builder,
      builder ∈ missing
      ↔ builder ∈ builder_list
        ∧ (builder ∉ match_builders include_builder_path builder_list)
        ∧ has_star builder = false.
Proof.
  cbn zeta. split; [apply NoDup_remove_dups|]. apply builder_missing_iff.
Qed.

(** X8: when a task names a builder that the index does not match and
    whose name holds no star, the run raises [ValueError] with the list of
    the missing builders, among them this one, and the world is untouched:
    no builder is constructed and no task is created. *)
Theorem unresolved_builder_is_fatal max_gen_requests data_path output_dir
    include_data_path include_builder_path restart w (builder : string) :
  data_path ≠ EmptyString →
  path_exists data_path (w_fs w) = true →
  let builder_list :=
    init_data_builder <$> read_data data_path include_data_path (w_fs w) in
  builder ∈ builder_list →
  builder ∉ match_builders include_builder_path builder_list →
  has_star builder = false →
  ∃ missing,
    builder ∈ missing
    ∧ generate_data max_gen_requests data_path output_dir include_data_path
                    include_builder_path restart w
      = (Raised (ValueError ("Builder specifications not found: ["
                               ++ String.concat ", " missing ++ "]")), w).
Proof.
  intros Hne Hex. cbn zeta. intros Hin Hnot Hstar.
  set (builder_list :=
         init_data_builder <$> read_data data_path include_data_path (w_fs w)) in *.
  set (missing := builder_missing builder_list
                    (gather_builders include_builder_path builder_list (w_fs w))).
  assert (builder ∈ missing) as Hb by (by apply builder_missing_iff).
  exists missing. split; [done|].
  assert (missing ≠ []) as Hmiss.
  { intros Hnil. rewrite Hnil in Hb. by apply elem_of_nil in Hb. }
  unfold generate_data. unfold bind at 1 2 3 4.
  unfold ask_fs. simpl. rewrite Hex, bool_decide_eq_true_2 by done. simpl.
  unfold bind at 1 2. simpl. fold builder_list. fold missing.
  rewrite bool_decide_eq_true_2 by done. done.
Qed.

(** ** Runs that return *)

Lemma run_group_seeded max_gen_requests data_path output_dir run restart
    task_inits acc item w :
  (∀ cfg, group_config item.2 = Some cfg →
          group_objs item.1 output_dir task_inits ≫= seed_data ≠ []) →
  ∃ acc' w',
    run_group max_gen_requests data_path output_dir run restart task_inits acc item w
    = (Returned acc', w')
    ∧ acc'.2 = match group_config item.2 with
               | Some _ => Some (discard_log output_dir run item.1)
               | None => acc.2
               end.
Proof.
  destruct item as [builder_name builder_cfg]. simpl. intros Hseeds.
  unfold run_group. destruct (group_config builder_cfg) as [cfg|]; [|by eexists _, _].
  specialize (Hseeds cfg eq_refl).
  unfold bind, tell, raise, ask_fs, update_fs, ret. simpl.
  rewrite bool_decide_eq_false_2; cycle 1.
  { intros Hz. apply Hseeds. by apply nil_length_inv. }
  simpl. destruct (path_exists output_dir (w_fs w)); simpl;
    match goal with |- context [run_tasks ?m ?r ?s] =>
      destruct (run_tasks_total m r s) as [st' ->] end; by eexists _, _.
Qed.

Lemma groups_seeded max_gen_requests data_path output_dir run restart
    task_inits items acc w :
  (∀ item cfg, item ∈ items → group_config item.2 = Some cfg →
               group_objs item.1 output_dir task_inits ≫= seed_data ≠ []) →
  ∃ acc' w',
    for_each (run_group max_gen_requests data_path output_dir run restart task_inits)
             items acc w
    = (Returned acc', w')
    ∧ acc'.2 = match last_run_builder items with
               | Some builder_name => Some (discard_log output_dir run builder_name)
               | None => acc.2
               end.
Proof.
  revert acc w. induction items as [|item items IH]; intros acc w Hseeds.
  { by eexists _, _. }
  cbn [for_each]. unfold bind.
  destruct (run_group_seeded max_gen_requests data_path output_dir run restart
              task_inits acc item w) as (acc1 & w1 & -> & Hfile).
  { intros cfg. apply Hseeds. by left. }
  destruct (IH acc1 w1) as (acc2 & w2 & -> & Hfile2).
  { intros it cfg Hin. apply Hseeds. by right. }
  exists acc2, w2. split; [done|]. rewrite Hfile2.
  cbn [last_run_builder]. destruct (last_run_builder items); [done|].
  rewrite Hfile. by destruct (group_config item.2).
Qed.

Lemma run_group_file max_gen_requests data_path output_dir run restart
    task_inits acc item w acc' w' :
  run_group max_gen_requests data_path output_dir run restart task_inits acc item w
  = (Returned acc', w') →
  acc'.2 = match group_config item.2 with
           | Some _ => Some (discard_log output_dir run item.1)
           | None => acc.2
           end.
Proof.
  destruct item as [builder_name builder_cfg]. simpl. unfold run_group.
  destruct (group_config builder_cfg) as [cfg|]; [|by intros [= <- _]].
  unfold bind, tell, raise, ask_fs, update_fs, ret. simpl.
  case_bool_decide; [done|]. simpl.
  destruct (path_exists output_dir (w_fs w)); simpl;
    match goal with |- context [run_tasks ?m ?r ?s] =>
      destruct (run_tasks m r s) end; by intros [= <- _].
Qed.

Lemma groups_file max_gen_requests data_path output_dir run restart
    task_inits items acc w acc' w' :
  for_each (run_group max_gen_requests data_path output_dir run restart task_inits)
           items acc w
  = (Returned acc', w') →
  acc'.2 = match last_run_builder items with
           | Some builder_name => Some (discard_log output_dir run builder_name)
           | None => acc.2
           end.
Proof.
  revert acc w. induction items as [|item items IH]; intros acc w.
  { by intros [= <- _]. }
  cbn [for_each]. unfold bind.
  destruct (run_group _ _ _ _ _ _ _ _ _) as [[acc1|e|] w1] eqn:Hgroup; [|done|done].
  intros Hrest. rewrite (IH _ _ Hrest). cbn [last_run_builder].
  destruct (last_run_builder items); [done|].
  rewrite (run_group_file _ _ _ _ _ _ _ _ _ _ _ Hgroup).
  by destruct (group_config item.2).
Qed.

(** X9: a run whose data path exists, whose builders are all resolved and
    whose groups all have a seed example returns normally, whatever the
    builders answer and whether or not the tasks become complete within
    the budget; the last thing it does is to log the duration. *)
Theorem seeded_run_returns max_gen_requests data_path output_dir
    include_data_path include_builder_path restart w :
  data_path ≠ EmptyString →
  path_exists data_path (w_fs w) = true →
  let task_inits := read_data data_path include_data_path (w_fs w) in
  let builder_list := init_data_builder <$> task_inits in
  let builder_names := gather_builders include_builder_path builder_list (w_fs w) in
  let out := run_output_dir data_path output_dir (w_fs w) in
  builder_missing builder_list builder_names = [] →
  (∀ item cfg,
     item ∈ load_builder_configs include_builder_path builder_names →
     group_config item.2 = Some cfg →
     group_objs item.1 out task_inits ≫= seed_data ≠ []) →
  ∃ w',
    generate_data max_gen_requests data_path output_dir include_data_path
                  include_builder_path restart w
    = (Returned tt, w')
    ∧ last (w_trace w') = Some (Log GenerationTook).
Proof.
  intros Hne Hex. cbn zeta. intros Hmiss Hseeds.
  rewrite generate_data_groups by done. unfold bind at 1.
  match goal with |- context [for_each ?f ?items ?a ?w0] =>
    pose proof (groups_outcome max_gen_requests data_path
                  (run_output_dir data_path output_dir (w_fs w))
                  (run_name data_path (w_fs w)) restart
                  (read_data data_path include_data_path (w_fs w)) items a w0) as Hg;
    destruct (groups_seeded max_gen_requests data_path
                (run_output_dir data_path output_dir (w_fs w))
                (run_name data_path (w_fs w)) restart
                (read_data data_path include_data_path (w_fs w)) items a w0 Hseeds)
      as ([total file] & w1 & Hrun & _)
  end.
  rewrite Hrun in Hg |- *. destruct Hg as (_ & _ & _ & Hnone). simpl in Hnone.
  unfold bind, tell, raise, ret. simpl.
  case_bool_decide as Hzero; simpl.
  - destruct file as [file|]; [|specialize (Hnone eq_refl); by simplify_eq].
    simpl. eexists. split; [done|]. simpl. by rewrite last_snoc.
  - eexists. split; [done|]. simpl. by rewrite last_snoc.
Qed.

(** X10: when a run that returns reports a discard total, the file that
    the report points to is the discard log of the last group that was
    run, though the total is that of all groups; nothing else is reported. *)
Theorem discard_report_points_to_last_group max_gen_requests data_path output_dir
    include_data_path include_builder_path restart w w' :
  generate_data max_gen_requests data_path output_dir include_data_path
                include_builder_path restart w
  = (Returned tt, w') →
  let task_inits := read_data data_path include_data_path (w_fs w) in
  let builder_list := init_data_builder <$> task_inits in
  let builder_names := gather_builders include_builder_path builder_list (w_fs w) in
  let items := load_builder_configs include_builder_path builder_names in
  let out := run_output_dir data_path output_dir (w_fs w) in
  let run := run_name data_path (w_fs w) in
  ∃ groups,
    reports groups = reports (w_trace w)
    ∧ (w_trace w' = groups ++ [ProgressClose; Log GenerationTook]
       ∨ ∃ total builder_name,
           total ≠ 0%Z
           ∧ last_run_builder items = Some builder_name
           ∧ w_trace w'
             = groups
                 ++ [ProgressClose;
                     Log (DiscardedDueToFormat total (discard_log out run builder_name));
                     Log GenerationTook]).
Proof.
  intros Hrun. cbn zeta.
  destruct (decide (data_path ≠ EmptyString)) as [Hne|Hempty]; cycle 1.
  { exfalso. revert Hrun. unfold generate_data, bind, ask_fs, raise. simpl.
    rewrite bool_decide_eq_false_2 by done. done. }
  destruct (path_exists data_path (w_fs w)) eqn:Hex; cycle 1.
  { by rewrite generate_data_missing in Hrun. }
  destruct (builder_missing
              (init_data_builder <$> read_data data_path include_data_path (w_fs w))
              (gather_builders include_builder_path
                 (init_data_builder <$> read_data data_path include_data_path (w_fs w))
                 (w_fs w))) eqn:Hmiss; cycle 1.
  { exfalso. revert Hrun. unfold generate_data. unfold bind at 1 2 3 4.
    unfold ask_fs. simpl. rewrite Hex, bool_decide_eq_true_2 by done. simpl.
    unfold bind at 1 2. simpl. rewrite Hmiss. done. }
  rewrite generate_data_groups in Hrun by done.
  unfold bind at 1 in Hrun.
  match type of Hrun with context [for_each ?f ?items ?a ?w0] =>
    pose proof (groups_outcome max_gen_requests data_path
                  (run_output_dir data_path output_dir (w_fs w))
                  (run_name data_path (w_fs w)) restart
                  (read_data data_path include_data_path (w_fs w)) items a w0) as Hg;
    pose proof (groups_file max_gen_requests data_path
                  (run_output_dir data_path output_dir (w_fs w))
                  (run_name data_path (w_fs w)) restart
                  (read_data data_path include_data_path (w_fs w)) items a w0) as Hf
  end.
  destruct (for_each _ _ _ _) as [[[total file]|e|] w1]; [|done|done].
  destruct Hg as (_ & Hrep & _ & _). specialize (Hf _ _ eq_refl). simpl in Hf.
  unfold bind, tell, raise, ret in Hrun. simpl in Hrun.
  exists (w_trace w1). split; [done|].
  case_bool_decide as Hzero; simpl in Hrun.
  - destruct file as [file|]; [|done]. simpl in Hrun. simplify_eq. right.
    destruct (last_run_builder _) as [builder_name|]; [|done].
    exists total, builder_name. simplify_eq. split; [done|]. split; [done|].
    simpl. by rewrite <- !app_assoc.
  - simplify_eq. left. simpl. by rewrite <- !app_assoc.
Qed.

(** ** The name of the run *)

(** X11: when the data path is a file given without any directory, the
    name of the run is empty and the run writes into
    [os.path.join(output_dir, "")], that is into the output directory
    itself and not into a sub-directory of it. *)
Theorem bare_file_has_no_subdirectory (data_path output_dir : string) (dsk : FS) :
  Posix.has_slash data_path = false →
  path_isfile data_path dsk = true →
  run_name data_path dsk = EmptyString
  ∧ run_output_dir data_path output_dir dsk = Posix.os_path_join output_dir EmptyString
  ∧ (output_dir ≠ EmptyString → Posix.ends_with_slash output_dir = false →
     run_output_dir data_path output_dir dsk = (output_dir ++ "/")%string).
Proof.
  intros Hbare Hfile.
  assert (run_name data_path dsk = EmptyString) as Hname.
  { unfold run_name, Posix.os_path_split. rewrite Hfile.
    by rewrite (PosixFacts.cut_no_slash _ Hbare). }
  unfold run_output_dir. rewrite Hname. split; [done|]. split; [done|].
  intros Hne Hend. unfold Posix.os_path_join. simpl.
  rewrite bool_decide_eq_false_2 by done. rewrite Hend. simpl.
  by rewrite PosixFacts.append_empty.
Qed.

(** X12: for a data path that is not a file, slashes at its end do not
    change the name of the run. *)
Theorem directory_name_ignores_trailing_slashes (data_path : string) (k : nat) (dsk : FS) :
  path_isfile data_path dsk = false →
  path_isfile (data_path ++ Posix.slashes k) dsk = false →
  run_name (data_path ++ Posix.slashes k) dsk = run_name data_path dsk.
Proof.
  intros Hdir Hdirs. unfold run_name. rewrite Hdir, Hdirs.
  unfold Posix.path_stem, Posix.path_name. by rewrite PosixFacts.proper_trailing.
Qed.

End RunExtras.

(** * Routing under unique task names *)

Section Routing.
Context {FS B : Type} `{!Storage FS} `{!DataBuilder B} `{!TaskPolicy}.
Variable max_gen_requests : Z.

Implicit Types (st : Loop FS B) (i j : nat) (fd : list Example) (l : list nat).

Lemma filter_disjoint_or (P Q : Example → Prop)
    `{!∀ x, Decision (P x)} `{!∀ x, Decision (Q x)} fd :
  (∀ x, P x → Q x → False) →
  length (filter (λ x, P x ∨ Q x) fd) = length (filter P fd) + length (filter Q fd).
Proof.
  intros Hdisj. induction fd as [|e fd IH]; [done|].
  rewrite !filter_cons.
  destruct (decide (P e)) as [HP|HP], (decide (Q e)) as [HQ|HQ].
  - destruct (Hdisj e HP HQ).
  - rewrite decide_True by (by left). simpl. by rewrite IH.
  - rewrite decide_True by (by right). simpl. rewrite IH. lia.
  - rewrite decide_False by (by intros [?|?]). done.
Qed.

Lemma shares_count fd st l :
  NoDup ((λ i, name (store st !!! i)) <$> l) →
  sum_list ((λ i, length (share fd st i)) <$> l)
  = length (filter (λ fid, Exists (λ i, task_name fid = name (store st !!! i)) l) fd).
Proof.
  induction l as [|a l IH]; intros Hnd.
  - simpl. symmetry. apply length_zero_iff_nil.
    induction fd as [|e fd IHfd]; [done|].
    rewrite filter_cons_False; [done|]. by intros ?%Exists_nil.
  - rewrite fmap_cons in Hnd. apply NoDup_cons in Hnd as [Hfresh Hnd].
    rewrite fmap_cons. cbn [sum_list_with foldr]. rewrite (IH Hnd). unfold id, share, new_data_for.
    rewrite <- filter_disjoint_or.
    + f_equal. apply list_filter_iff. intros fid. by rewrite Exists_cons.
    + intros fid Ha Hex. apply Hfresh. apply Exists_exists in Hex as (i & Hi & Hname).
      apply list_elem_of_fmap. exists i. split; [congruence|done].
Qed.

(** X13: when the active tasks have pairwise different names, a pass
    hands out every accepted example that is tagged for an active task
    exactly once: the increments saved in the pass hold together as many
    examples as the builder returned for active tasks. *)
Theorem accepted_examples_delivered_once restart (objs : list SdgTask) (total : Z)
    (builder : B) (dsk : FS) (tr : list Event) st fd d b :
  at_loop_head max_gen_requests
    (group_start restart (initial_loop objs total builder dsk tr)) st →
  response st = (fd, d, b) →
  NoDup ((λ i, name (store st !!! i)) <$> tasks st) →
  sum_list ((λ save : nat * list Example, length save.2)
              <$> drop (length (saves (trace st))) (saves (trace (iteration st))))
  = length (filter (routable st) fd).
Proof.
  intros Hhead Hresp Hnames.
  pose proof (at_loop_head_inv _ _ _ (entry_inv restart objs total builder dsk tr) Hhead)
    as Hinv.
  destruct (iteration_observed st fd d b Hinv Hresp) as (_ & _ & -> & _).
  rewrite drop_app_length, <- list_fmap_compose.
  apply (shares_count fd st (tasks st) Hnames).
Qed.

End Routing.

(** ** The further properties on the sample inputs *)

Section TwoTasksMore.
Import Sample.
#[local] Existing Instance two_policy.
#[local] Existing Instance two_registry.

Lemma nothing_to_generate_witness :
  let entry := group_start false (initial_loop two_objs 0 two_script input_disk []) in
  run_tasks (-1) false (initial_loop two_objs 0 two_script input_disk []) = Some entry
  ∧ invocations (trace entry) = []
  ∧ saves (trace entry) = [].
Proof.
  assert (-1 < 0)%Z as Hneg by lia.
  exact (nothing_to_generate (-1) false two_objs 0 two_script input_disk []
           (or_introl Hneg)).
Defined.

Lemma every_task_in_one_list_witness :
  let st := iteration (group_start false (initial_loop two_objs 0 two_script input_disk [])) in
  tasks st ++ completed_tasks st ≡ₚ [0; 1]
  ∧ last (trace (iteration st)) = Some (Log (Generated 3 0)).
Proof.
  exact (every_task_in_one_list 5 false two_objs 0 two_script input_disk []
           _ [a2; b2] 0%Z two_script two_tasks_after_first_pass eq_refl).
Defined.

Lemma generated_examples_only_grow_witness :
  let st0 := group_start false (initial_loop two_objs 0 two_script input_disk []) in
  let st1 := iteration st0 in
  name (store st1 !!! 0) = name (store st0 !!! 0)
  ∧ output_path (store st1 !!! 0) = output_path (store st0 !!! 0)
  ∧ seed_data (store st1 !!! 0) = seed_data (store st0 !!! 0)
  ∧ machine_data (store st0 !!! 0) `prefix_of` machine_data (store st1 !!! 0).
Proof.
  exact (generated_examples_only_grow 5 false two_objs 0 two_script input_disk []
           _ _ 0 (head_entry _ _) two_tasks_after_first_pass).
Defined.

Lemma accepted_examples_delivered_once_witness :
  let st := iteration (group_start false (initial_loop two_objs 0 two_script input_disk [])) in
  sum_list ((λ save : nat * list Example, length save.2)
              <$> drop (length (saves (trace st))) (saves (trace (iteration st))))
  = length (filter (routable st) [a2; b2]).
Proof.
  assert (NoDup ["A"]) as Hnames by apply NoDup_singleton.
  exact (accepted_examples_delivered_once 5 false two_objs 0 two_script input_disk []
           _ [a2; b2] 0%Z two_script two_tasks_after_first_pass eq_refl Hnames).
Defined.

Lemma seeded_run_returns_witness :
  ∃ w',
    generate_data 5 "data/qna.yaml" "out" None None false (empty_world input_disk)
    = (Returned tt, w')
    ∧ last (w_trace w') = Some (Log GenerationTook).
Proof.
  apply (seeded_run_returns 5 "data/qna.yaml" "out" None None false
           (empty_world input_disk)); [discriminate|reflexivity|reflexivity|].
  intros item cfg Hitem _. apply list_elem_of_In in Hitem. vm_compute in Hitem.
  destruct Hitem as [<-|[]]. vm_compute. discriminate.
Defined.

Lemma discard_report_points_to_last_group_witness :
  let w' := (generate_data 5 "data/qna.yaml" "out" None None false
               (empty_world input_disk)).2 in
  ∃ groups,
    reports groups = []
    ∧ (w_trace w' = groups ++ [ProgressClose; Log GenerationTook]
       ∨ ∃ total builder_name,
           total ≠ 0%Z
           ∧ Some "b" = Some builder_name
           ∧ w_trace w'
             = groups
                 ++ [ProgressClose;
                     Log (DiscardedDueToFormat total
                            (discard_log "out/data" "data" builder_name));
                     Log GenerationTook]).
Proof.
  cbn zeta.
  assert (generate_data 5 "data/qna.yaml" "out" None None false (empty_world input_disk)
          = (Returned tt,
             (generate_data 5 "data/qna.yaml" "out" None None false
                (empty_world input_disk)).2)) as Hrun by (vm_compute; reflexivity).
  exact (discard_report_points_to_last_group 5 "data/qna.yaml" "out" None None false
           (empty_world input_disk) _ Hrun).
Defined.

End TwoTasksMore.

Section Unresolved.
Import Sample SampleMore.
#[local] Existing Instance file_policy.
#[local] Existing Instance file_registry.

Lemma unresolved_builder_is_fatal_witness :
  ∃ missing,
    "builders/b.yaml" ∈ missing
    ∧ generate_data 5 "data/qna.yaml" "out" None None false (empty_world file_disk)
      = (Raised (ValueError ("Builder specifications not found: ["
                               ++ String.concat ", " missing ++ "]")),
         empty_world file_disk).
Proof.
  apply (unresolved_builder_is_fatal 5 "data/qna.yaml" "out" None None false
           (empty_world file_disk) "builders/b.yaml");
    [discriminate|reflexivity| | |reflexivity].
  - vm_compute. apply list_elem_of_In. left. reflexivity.
  - vm_compute. intros Hin. apply list_elem_of_In in Hin. destruct Hin.
Defined.

(** The builder is a configuration file that exists and is loaded, and it
    is reported missing all the same. *)
Lemma loaded_configuration_is_still_missing :
  path_isfile "builders/b.yaml" file_disk = true
  ∧ generate_data 5 "data/qna.yaml" "out" None None false (empty_world file_disk)
    = (Raised (ValueError "Builder specifications not found: [builders/b.yaml]"),
       empty_world file_disk).
Proof. split; vm_compute; reflexivity. Qed.

Lemma bare_file_has_no_subdirectory_witness :
  run_name "qna.yaml" bare_disk = EmptyString
  ∧ run_output_dir "qna.yaml" "out" bare_disk = Posix.os_path_join "out" EmptyString
  ∧ ("out" ≠ EmptyString → Posix.ends_with_slash "out" = false →
     run_output_dir "qna.yaml" "out" bare_disk = "out/").
Proof.
  exact (bare_file_has_no_subdirectory "qna.yaml" "out" bare_disk eq_refl eq_refl).
Defined.

Lemma directory_name_ignores_trailing_slashes_witness :
  run_name "data/set//" input_disk = run_name "data/set" input_disk.
Proof.
  exact (directory_name_ignores_trailing_slashes "data/set" 2 input_disk
           eq_refl eq_refl).
Defined.

End Unresolved.
